(** * Daraz product scraper: a shallow embedding of [daraz.py]

    The scraper drives a Selenium session: it opens a listing URL, collects
    the (name, price, sold) texts of the product containers of each page,
    appends them to a CSV file and clicks through to the next page.

    Everything outside the repository (the browser, the clock, the file
    system's faults) is an [Engine]: a record of oracles over an abstract
    [World].  The methods of [DarazScraper] are functions in a state and
    exception monad over that world, the files on disk and a trace of the
    effects performed.

    Conventions of the model:
    - an exception is an instance of a subclass of [Exception], which is
      what every [except] clause of daraz.py can catch; signals such as
      [KeyboardInterrupt] are outside the model;
    - a loguru call adds its message to the trace and does not raise;
      the sinks the message goes to (among them the file that [__init__]
      adds) are not modelled: [files] holds the files the scraper opens
      itself, and the statements below speak of the CSV file only;
    - the rows of a batch stay in the buffer of the file object until the
      file is closed: a close that fails loses them;
    - [find_element] and [.text] read the DOM of the world they are run in
      and leave it as it is; the other calls into Selenium, and the clock,
      may change the world. *)

From Stdlib Require Import Ascii String ZArith.
From stdpp Require Import gmap strings list.

Local Open Scope string_scope.
Local Open Scope Z_scope.
Local Open Scope list_scope.

(** ** constants.py *)

Module Xpaths.

Inductive t : Type :=
| PRODUCT_CONTAINER
| PRODUCT_PRICE
| PRODUCT_NAME
| PRODUCT_SOLD
| NEXT_PAGE.

(** The double quote of the XPath attribute tests. *)
Definition dq : string := String "034"%char EmptyString.

Definition value (x : t) : string :=
  match x with
  | PRODUCT_CONTAINER => "//div[@class=" +:+ dq +:+ "Ms6aG" +:+ dq +:+ "]"
  | PRODUCT_PRICE => ".//div[@class=" +:+ dq +:+ "aBrP0" +:+ dq +:+ "]"
  | PRODUCT_NAME => ".//div[@class=" +:+ dq +:+ "RfADt" +:+ dq +:+ "]"
  | PRODUCT_SOLD =>
      ".//div[@class=" +:+ dq +:+ "_6uN7R" +:+ dq +:+ "]/span[@class="
        +:+ dq +:+ "_1cEkb" +:+ dq +:+ "]"
  | NEXT_PAGE =>
      "//button[@class=" +:+ dq +:+ "ant-pagination-item-link" +:+ dq
        +:+ "]/span[@aria-label=" +:+ dq +:+ "right" +:+ dq +:+ "]"
  end.

End Xpaths.

Arguments Xpaths.value : simpl never.

(** ** Values, exceptions and effects *)

(** The subclasses of [Exception] that the handlers of daraz.py tell apart;
    [OtherException] stands for every other subclass. *)
Inductive Exception : Type :=
| NoSuchElementException (msg : string)
| TimeoutException (msg : string)
| OtherException (msg : string).

Inductive Result (A : Type) : Type :=
| Ok (a : A)
| Raise (e : Exception).
Arguments Ok {A} a.
Arguments Raise {A} e.

(** A handle on a DOM element. *)
Definition WebElement : Type := nat.

(** One CSV row: the Python list [[product_name, product_price, product_sold]]. *)
Abbreviation Row := (list string).

(** What a method hands back to its caller. *)
Inductive PyValue : Type :=
| PyNone
| PyBool (b : bool)
| PyRows (rows : list Row).

Inductive Level : Type := INFO | WARNING | ERROR.

(** The messages of the loguru calls, with the values they interpolate. *)
Inductive LogMsg : Type :=
| OpeningURL (url : string)
| FailedToOpenURL (e : Exception)
| FoundProducts (n : nat)
| ProductDetailsNotFound (e : Exception)
| TimedOutWaitingForContainers
| ErrorScrapingProducts (e : Exception)
| NavigatedToNextPage
| NextPageButtonNotFound
| ErrorNavigating (e : Exception)
| RecordsWritten (n : nat)
| ErrorWritingCSV (e : Exception)
| ScrapingPage (page pages : Z)
| ErrorScrapingPage (page : Z) (e : Exception)
| DriverClosed
| ErrorClosingDriver (e : Exception).

Inductive Method : Type :=
| m_start_driver
| m_scrape_products
| m_go_to_next_page
| m_write_to_csv (data : list Row)
| m_scrape_all_pages (pages : Z)
| m_quit_driver.

(** The trace: every effect in the order it is performed.  [Enter] marks
    the entry into a method of [DarazScraper]; the other events are the
    calls into loguru, Selenium, [time] and the file object. *)
Inductive Event : Type :=
| Enter (m : Method)
| Log (l : Level) (msg : LogMsg)
| DriverGet (url : string)
| TimeSleep (secs : nat)
| WaitPresenceOfAll (timeout : nat) (xpath : string)
| WaitClickable (timeout : nat) (xpath : string)
| ElementClick (el : WebElement)
| DriverQuit
| FileOpen (path mode newline encoding : string)
| WriteRows (rows : list Row)
| FileClose (path : string).

(** ** The engine: Selenium, the clock and the faults of file I/O *)

Record Engine (World : Type) : Type := mkEngine {
  (** [driver.get(url)] *)
  driver_get : string -> World -> Result unit * World;
  (** [time.sleep(secs)]: time passes, the page may change. *)
  time_sleep : nat -> World -> World;
  (** [WebDriverWait(driver, t).until(EC.presence_of_all_elements_located(
      (By.XPATH, xpath)))] *)
  wait_presence_of_all : nat -> string -> World -> Result (list WebElement) * World;
  (** [WebDriverWait(driver, t).until(EC.element_to_be_clickable(
      (By.XPATH, xpath)))] *)
  wait_clickable : nat -> string -> World -> Result WebElement * World;
  (** [element.find_element(By.XPATH, xpath)]: reads the DOM. *)
  find_element : WebElement -> string -> World -> Result WebElement;
  (** [element.text]: reads the DOM. *)
  text : WebElement -> World -> Result string;
  (** [element.click()] *)
  click : WebElement -> World -> Result unit * World;
  (** [driver.quit()] *)
  driver_quit : World -> Result unit * World;
  (** Whether [open(path, mode='a', ...)] goes through. *)
  os_open : string -> World -> Result unit * World;
  (** Whether [writer.writerows(rows)] goes through; when it does not,
      how many of the rows reached the file before the exception. *)
  os_writerows : string -> list Row -> World -> option (nat * Exception) * World;
  (** Whether closing the file at the end of [with] goes through. *)
  os_close : string -> World -> Result unit * World
}.
Arguments driver_get {World}.
Arguments time_sleep {World}.
Arguments wait_presence_of_all {World}.
Arguments wait_clickable {World}.
Arguments find_element {World}.
Arguments text {World}.
Arguments click {World}.
Arguments driver_quit {World}.
Arguments os_open {World}.
Arguments os_writerows {World}.
Arguments os_close {World}.

(** ** Program state and the monad of methods *)

Record State (World : Type) : Type := mkState {
  world : World;
  files : gmap string (list Row);
  trace : list Event
}.
Arguments mkState {World}.
Arguments world {World}.
Arguments files {World}.
Arguments trace {World}.

Definition M (World A : Type) : Type := State World -> Result A * State World.

Definition ret {W A} (a : A) : M W A := fun st => (Ok a, st).

Definition raise {W A} (e : Exception) : M W A := fun st => (Raise e, st).

Definition bind {W A B} (m : M W A) (k : A -> M W B) : M W B :=
  fun st =>
    match m st with
    | (Ok a, st') => k a st'
    | (Raise e, st') => (Raise e, st')
    end.

(** [try: body  except ...: handler]; the handler re-raises what its
    [except] clauses do not match. *)
Definition try_except {W A} (body : M W A) (handler : Exception -> M W A) : M W A :=
  fun st =>
    match body st with
    | (Ok a, st') => (Ok a, st')
    | (Raise e, st') => handler e st'
    end.

Declare Scope py_scope.
Delimit Scope py_scope with py.
Notation "x <- m ;; k" := (bind m (fun x => k))
  (at level 100, m at next level, right associativity) : py_scope.
Notation "m ;; k" := (bind m (fun _ => k))
  (at level 100, right associativity) : py_scope.
Local Open Scope py_scope.

Definition emit {W} (ev : Event) : M W unit :=
  fun st => (Ok tt, mkState (world st) (files st) (trace st ++ [ev])).

Definition enter {W} (m : Method) : M W unit := emit (Enter m).

Definition log {W} (l : Level) (msg : LogMsg) : M W unit := emit (Log l msg).

(** A call into the engine that may change the world. *)
Definition call {W A} (ev : Event) (f : W -> Result A * W) : M W A :=
  fun st =>
    let '(r, w') := f (world st) in
    (r, mkState w' (files st) (trace st ++ [ev])).

(** A read of the DOM. *)
Definition observe {W A} (f : W -> Result A) : M W A :=
  fun st => (f (world st), st).

(** The content of a file, empty when the file does not exist. *)
Definition content (fs : gmap string (list Row)) (path : string) : list Row :=
  default [] (fs !! path).

Record DarazScraper : Type := mkScraper {
  url : string;
  csv_file : string
}.

(** ** class DarazScraper *)

Section Scraper.

Context {World : Type} (E : Engine World).

Local Abbreviation M := (M World).

(** [time.sleep(secs)] *)
Definition sleep (secs : nat) : M unit :=
  fun st =>
    (Ok tt, mkState (time_sleep E secs (world st)) (files st)
              (trace st ++ [TimeSleep secs])).

(** [open(path, mode='a', newline='', encoding='utf-8')]: append mode
    creates the file when it does not exist and leaves what it holds. *)
Definition open_append (path : string) : M unit :=
  fun st =>
    let '(r, w') := os_open E path (world st) in
    let t' := trace st ++ [FileOpen path "a" "" "utf-8"] in
    match r with
    | Ok _ => (Ok tt, mkState w' (<[path := content (files st) path]> (files st)) t')
    | Raise e => (Raise e, mkState w' (files st) t')
    end.

(** [csv.writer(file).writerows(rows)] on a file opened for appending:
    the rows go after the content of the file, all of them or, when the
    write fails, those written before the failure.  They are in the buffer
    of the file object: [with_open] keeps or drops them when it closes the
    file. *)
Definition writerows (path : string) (rows : list Row) : M unit :=
  fun st =>
    let '(fault, w') := os_writerows E path rows (world st) in
    let t' := trace st ++ [WriteRows rows] in
    match fault with
    | None =>
        (Ok tt, mkState w' (<[path := content (files st) path ++ rows]> (files st)) t')
    | Some (n, e) =>
        (Raise e,
         mkState w' (<[path := content (files st) path ++ take n rows]> (files st)) t')
    end.

(** [with open(...) as file: body]: the file is closed however the body
    ends; an exception of the close replaces the one of the body.  The
    close flushes what the body wrote; when it fails, what the body wrote
    is lost and the files are as [open] left them. *)
Definition with_open (path : string) (body : M unit) : M unit :=
  open_append path;;
  fun st =>
    let '(r, st1) := body st in
    match call (FileClose path) (os_close E path) st1 with
    | (Ok _, st2) => (r, st2)
    | (Raise e, st2) => (Raise e, mkState (world st2) (files st) (trace st2))
    end.

Definition quit_driver (self : DarazScraper) : M PyValue :=
  enter m_quit_driver;;
  try_except
    (call DriverQuit (driver_quit E);;
     log INFO DriverClosed)
    (fun e => log ERROR (ErrorClosingDriver e));;
  ret PyNone.

Definition start_driver (self : DarazScraper) : M PyValue :=
  enter m_start_driver;;
  log INFO (OpeningURL (url self));;
  try_except
    (call (DriverGet (url self)) (driver_get E (url self));;
     sleep 2)
    (fun e =>
       log ERROR (FailedToOpenURL e);;
       quit_driver self;;
       ret tt);;
  ret PyNone.

Definition write_to_csv (self : DarazScraper) (data : list Row) : M PyValue :=
  enter (m_write_to_csv data);;
  try_except
    (with_open (csv_file self)
       (writerows (csv_file self) data;;
        log INFO (RecordsWritten (length data))))
    (fun e => log ERROR (ErrorWritingCSV e));;
  ret PyNone.

(** [container.find_element(By.XPATH, x.value).text] *)
Definition field_text (container : WebElement) (x : Xpaths.t) : M string :=
  el <- observe (find_element E container (Xpaths.value x));;
  observe (text E el).

(** The [for container in product_containers] loop; [product_data] is
    the list the loop appends to. *)
Fixpoint for_containers (product_containers : list WebElement)
    (product_data : list Row) : M (list Row) :=
  match product_containers with
  | [] => ret product_data
  | container :: rest =>
      product_data' <-
        try_except
          (product_name <- field_text container Xpaths.PRODUCT_NAME;;
           product_price <- field_text container Xpaths.PRODUCT_PRICE;;
           product_sold <- field_text container Xpaths.PRODUCT_SOLD;;
           ret (product_data ++ [[product_name; product_price; product_sold]]))
          (fun e =>
             match e with
             | NoSuchElementException _ =>
                 log ERROR (ProductDetailsNotFound e);;
                 ret product_data
             | _ => raise e
             end);;
      for_containers rest product_data'
  end.

Definition scrape_products (self : DarazScraper) : M PyValue :=
  enter m_scrape_products;;
  try_except
    (product_containers <-
       call (WaitPresenceOfAll 10 (Xpaths.value Xpaths.PRODUCT_CONTAINER))
         (wait_presence_of_all E 10 (Xpaths.value Xpaths.PRODUCT_CONTAINER));;
     log INFO (FoundProducts (length product_containers));;
     product_data <- for_containers product_containers [];;
     write_to_csv self product_data;;
     ret tt)
    (fun e =>
       match e with
       | TimeoutException _ => log ERROR TimedOutWaitingForContainers
       | _ => log ERROR (ErrorScrapingProducts e)
       end);;
  ret PyNone.

Definition go_to_next_page (self : DarazScraper) : M PyValue :=
  enter m_go_to_next_page;;
  try_except
    (next_page_button <-
       call (WaitClickable 10 (Xpaths.value Xpaths.NEXT_PAGE))
         (wait_clickable E 10 (Xpaths.value Xpaths.NEXT_PAGE));;
     call (ElementClick next_page_button) (click E next_page_button);;
     log INFO NavigatedToNextPage;;
     sleep 3)
    (fun e =>
       match e with
       | TimeoutException _ => log WARNING NextPageButtonNotFound
       | _ => log ERROR (ErrorNavigating e)
       end);;
  ret PyNone.

(** The [for page in range(pages)] loop over the indices still to visit;
    the body answers whether it left the loop through [break]. *)
Fixpoint for_pages (self : DarazScraper) (pages : Z) (range : list Z) : M unit :=
  match range with
  | [] => ret tt
  | page :: rest =>
      broke <-
        try_except
          (log INFO (ScrapingPage (page + 1) pages);;
           scrape_products self;;
           (if page <? pages - 1 then go_to_next_page self else ret PyNone);;
           ret false)
          (fun e =>
             log ERROR (ErrorScrapingPage (page + 1) e);;
             ret true);;
      if broke then ret tt else for_pages self pages rest
  end.

Definition scrape_all_pages (self : DarazScraper) (pages : Z) : M PyValue :=
  enter (m_scrape_all_pages pages);;
  start_driver self;;
  for_pages self pages (seqZ 0 pages);;
  quit_driver self;;
  ret PyNone.

End Scraper.

(** ** A scripted engine

    A listing site given page by page, each page by the cards it shows;
    a card has the text of each of its three fields, or lacks the field.
    Container [i] of the page in view is element [4 * (i + 1)], its name,
    price and sold fields are the three elements that follow, and the
    next-page button is element [0]. *)

Module Fake.

Record Card : Type := mkCard {
  card_name : option string;
  card_price : option string;
  card_sold : option string
}.

Record World : Type := mkWorld {
  get_ok : bool;              (* whether [driver.get] loads the page *)
  site : list (list Card);    (* the cards of every page of the listing *)
  page : nat;                 (* the page in view *)
  session : bool;             (* the browser session is alive *)
  disk_ok : bool              (* whether the CSV file can be opened *)
}.

Definition field_index (xpath : string) : nat :=
  if String.eqb xpath (Xpaths.value Xpaths.PRODUCT_NAME) then 1%nat
  else if String.eqb xpath (Xpaths.value Xpaths.PRODUCT_PRICE) then 2%nat
  else if String.eqb xpath (Xpaths.value Xpaths.PRODUCT_SOLD) then 3%nat
  else 0%nat.

Definition card_field (c : Card) (k : nat) : option string :=
  match k with
  | 1%nat => card_name c
  | 2%nat => card_price c
  | 3%nat => card_sold c
  | _ => None
  end.

Definition cards (w : World) : list Card := default [] (site w !! page w).

Definition card_of (w : World) (el : WebElement) : option Card :=
  match (el / 4)%nat with
  | O => None
  | S i => cards w !! i
  end.

Definition dead {A} : Result A := Raise (OtherException "invalid session id").

Definition engine : Engine World := {|
  driver_get := fun _ w =>
    if get_ok w then (Ok tt, w)
    else (Raise (OtherException "net::ERR_NAME_NOT_RESOLVED"), w);
  time_sleep := fun _ w => w;
  wait_presence_of_all := fun _ _ w =>
    if session w then
      match cards w with
      | [] => (Raise (TimeoutException "no container"), w)
      | cs => (Ok (map (fun i => 4 * (i + 1))%nat (seq 0 (length cs))), w)
      end
    else (dead, w);
  wait_clickable := fun _ _ w =>
    if session w then
      if bool_decide (page w + 1 < length (site w))%nat then (Ok 0%nat, w)
      else (Raise (TimeoutException "no next page"), w)
    else (dead, w);
  find_element := fun el xpath w =>
    if session w then
      match card_of w el ≫= (fun c => card_field c (field_index xpath)) with
      | Some _ => Ok (el + field_index xpath)%nat
      | None => Raise (NoSuchElementException xpath)
      end
    else dead;
  text := fun el w =>
    if session w then
      match card_of w el ≫= (fun c => card_field c (el mod 4)%nat) with
      | Some s => Ok s
      | None => Raise (OtherException "stale element reference")
      end
    else dead;
  click := fun _ w =>
    if session w then
      (Ok tt, mkWorld (get_ok w) (site w) (S (page w)) (session w) (disk_ok w))
    else (dead, w);
  driver_quit := fun w =>
    (Ok tt, mkWorld (get_ok w) (site w) (page w) false (disk_ok w));
  os_open := fun _ w =>
    if disk_ok w then (Ok tt, w)
    else (Raise (OtherException "Permission denied"), w);
  os_writerows := fun _ _ w => (None, w);
  os_close := fun _ w => (Ok tt, w)
|}.

Definition full (n p s : string) : Card := mkCard (Some n) (Some p) (Some s).

(** Three pages: two cards, then three cards of which the second has no
    price, then none. *)
Definition listing : list (list Card) :=
  [ [full "Phone A" "Rs. 1,200" "5 sold"; full "Phone B" "Rs. 900" "12 sold"];
    [full "Phone C" "Rs. 700" "1 sold";
     mkCard (Some "Phone D") None (Some "3 sold");
     full "Phone E" "Rs. 450" "40 sold"];
    [] ].

Definition scraper : DarazScraper :=
  mkScraper "https://www.daraz.pk/catalog/?q=mobile" "daraz_products.csv".

Definition start (w : World) : State World := mkState w ∅ [].

(** The browser as [__init__] leaves it, on the first page. *)
Definition online : World := mkWorld true listing 0 true true.

(** The same, with a URL that does not load. *)
Definition offline : World := mkWorld false listing 0 true true.


(** A disk that already holds two files. *)
Definition disk : gmap string (list Row) :=
  <[ "daraz_products.csv" := [["Phone Z"; "Rs. 100"; "2 sold"]] ]>
    (<[ "notes.txt" := [["keep"]] ]> ∅).

(** The browser on the second page, whose second card has no price. *)
Definition second_page : World := mkWorld true listing 1 true true.

(** The browser on the last page, which shows no container. *)
Definition last_page : World := mkWorld true listing 2 true true.

End Fake.

(** ** What a trace shows *)

(** The calls of [scrape_products] and [go_to_next_page], in order. *)
Definition page_call (ev : Event) : option Method :=
  match ev with
  | Enter m_scrape_products => Some m_scrape_products
  | Enter m_go_to_next_page => Some m_go_to_next_page
  | _ => None
  end.

Definition page_calls (t : list Event) : list Method := omap page_call t.

(** The batches handed to [write_to_csv], in order. *)
Definition batch_of (ev : Event) : option (list Row) :=
  match ev with
  | Enter (m_write_to_csv data) => Some data
  | _ => None
  end.

Definition batches (t : list Event) : list (list Row) := omap batch_of t.

(** How many times [driver.quit()] was called. *)
Definition close_of (ev : Event) : option unit :=
  match ev with
  | DriverQuit => Some tt
  | _ => None
  end.

Definition closes (t : list Event) : nat := length (omap close_of t).

(** The files opened, each with its mode, newline and encoding. *)
Definition open_of (ev : Event) : option (string * string * string * string) :=
  match ev with
  | FileOpen path mode newline encoding => Some (path, mode, newline, encoding)
  | _ => None
  end.

Definition opens (t : list Event) : list (string * string * string * string) :=
  omap open_of t.

(** The calls the page loop makes at index [page] of a run over [pages]
    pages. *)
Definition visit (pages page : Z) : list Method :=
  if page <? pages - 1 then [m_scrape_products; m_go_to_next_page]
  else [m_scrape_products].

Definition is_scrape (m : Method) : bool :=
  match m with
  | m_scrape_products => true
  | _ => false
  end.

Definition is_advance (m : Method) : bool :=
  match m with
  | m_go_to_next_page => true
  | _ => false
  end.

(** How many of the calls satisfy [p]. *)
Definition count (p : Method -> bool) (calls : list Method) : nat :=
  length (List.filter p calls).

(** ** Reading the DOM *)

(** The sub-fields of a container, in the order the loop looks them up. *)
Definition sub_fields : list Xpaths.t :=
  [Xpaths.PRODUCT_NAME; Xpaths.PRODUCT_PRICE; Xpaths.PRODUCT_SOLD].

Section Fields.

Context {World : Type} (E : Engine World).

(** What [container.find_element(By.XPATH, x.value).text] evaluates to
    in world [w]. *)
Definition field (w : World) (container : WebElement) (x : Xpaths.t) : Result string :=
  match find_element E container (Xpaths.value x) w with
  | Ok el => text E el w
  | Raise e => Raise e
  end.

Definition present (w : World) (container : WebElement) (x : Xpaths.t) : Prop :=
  exists s, field w container x = Ok s.

Definition absent (w : World) (container : WebElement) (x : Xpaths.t) : Prop :=
  exists msg, field w container x = Raise (NoSuchElementException msg).

(** [r] is the (name, price, sold) text triple of [container]. *)
Definition record_of (w : World) (container : WebElement) (r : Row) : Prop :=
  exists n p s,
    r = [n; p; s]
    /\ field w container Xpaths.PRODUCT_NAME = Ok n
    /\ field w container Xpaths.PRODUCT_PRICE = Ok p
    /\ field w container Xpaths.PRODUCT_SOLD = Ok s.

Definition complete (w : World) (container : WebElement) : Prop :=
  present w container Xpaths.PRODUCT_NAME
  /\ present w container Xpaths.PRODUCT_PRICE
  /\ present w container Xpaths.PRODUCT_SOLD.

(** Each of the three sub-fields of the container is there or is not
    (the lookup finds it or raises [NoSuchElementException]), and at
    least one is not. *)
Definition lacks_a_field (w : World) (container : WebElement) : Prop :=
  (forall x, In x sub_fields -> present w container x \/ absent w container x)
  /\ exists x, In x sub_fields /\ absent w container x.

(** The value of one turn of the container loop: the [try] body and
    its [except NoSuchElementException] clause, without the logging. *)
Definition container_outcome (w : World) (container : WebElement)
    (product_data : list Row) : Result (list Row) :=
  match field w container Xpaths.PRODUCT_NAME with
  | Ok n =>
      match field w container Xpaths.PRODUCT_PRICE with
      | Ok p =>
          match field w container Xpaths.PRODUCT_SOLD with
          | Ok s => Ok (product_data ++ [[n; p; s]])
          | Raise (NoSuchElementException _) => Ok product_data
          | Raise e => Raise e
          end
      | Raise (NoSuchElementException _) => Ok product_data
      | Raise e => Raise e
      end
  | Raise (NoSuchElementException _) => Ok product_data
  | Raise e => Raise e
  end.

(** The value of the whole container loop. *)
Fixpoint collected (w : World) (containers : list WebElement)
    (product_data : list Row) : Result (list Row) :=
  match containers with
  | [] => Ok product_data
  | container :: rest =>
      match container_outcome w container product_data with
      | Ok product_data' => collected w rest product_data'
      | Raise e => Raise e
      end
  end.

End Fields.

Definition is_log (ev : Event) : Prop := exists l msg, ev = Log l msg.

(** ** The constructor and the script

    [__init__] and the [__main__] block of daraz.py.  Launching Chrome and
    adding the log sink are calls outside the repository too. *)

Record Launcher (World : Type) : Type := mkLauncher {
  (** [webdriver.Chrome()] *)
  webdriver_Chrome : World -> Result unit * World;
  (** [logger.add(sink, rotation="1 MB", level="INFO")] *)
  logger_add : string -> World -> Result unit * World
}.
Arguments webdriver_Chrome {World}.
Arguments logger_add {World}.

(** [DarazScraper(url, csv_file)]: nothing is caught here. *)
Definition __init__ {World} (L : Launcher World) (url csv_file : string)
    : M World DarazScraper :=
  fun st =>
    match webdriver_Chrome L (world st) with
    | (Ok _, w1) =>
        match logger_add L "daraz_scraper.log" w1 with
        | (Ok _, w2) => (Ok (mkScraper url csv_file), mkState w2 (files st) (trace st))
        | (Raise e, w2) => (Raise e, mkState w2 (files st) (trace st))
        end
    | (Raise e, w1) => (Raise e, mkState w1 (files st) (trace st))
    end.

(** The [if __name__ == "__main__":] block. *)
Definition main {World} (L : Launcher World) (E : Engine World) : M World unit :=
  scraper <- __init__ L
    "https://www.daraz.pk/catalog/?spm=a2a0e.tm80335142.search.d_go&q=mobile"
    "daraz_products.csv";;
  scrape_all_pages E scraper 5;;
  ret tt.

(** ** More of what a trace shows *)

(** The time a call may block: the seconds of a sleep, the timeout of a
    wait. *)
Definition cost_of (ev : Event) : nat :=
  match ev with
  | TimeSleep secs => secs
  | WaitPresenceOfAll timeout _ => timeout
  | WaitClickable timeout _ => timeout
  | _ => 0
  end.

Fixpoint cost (t : list Event) : nat :=
  match t with
  | [] => 0
  | ev :: t' => cost_of ev + cost t'
  end.

(** What the page loop may spend at index [page]: a wait of 10 in
    [scrape_products] and, before the last index, a wait of 10 and a sleep
    of 3 in [go_to_next_page]. *)
Definition page_budget (pages page : Z) : nat :=
  if page <? pages - 1 then 23 else 10.

(** The messages of the page loop itself. *)
Definition page_log_of (ev : Event) : option (Level * LogMsg) :=
  match ev with
  | Log l (ScrapingPage page pages) => Some (l, ScrapingPage page pages)
  | Log l (ErrorScrapingPage page e) => Some (l, ErrorScrapingPage page e)
  | _ => None
  end.

Definition page_logs (t : list Event) : list (Level * LogMsg) := omap page_log_of t.

(** The exceptions logged for containers that were skipped. *)
Definition skip_of (ev : Event) : option Exception :=
  match ev with
  | Log ERROR (ProductDetailsNotFound e) => Some e
  | _ => None
  end.

Definition skips (t : list Event) : list Exception := omap skip_of t.

(** The clicks made. *)
Definition click_of (ev : Event) : option WebElement :=
  match ev with
  | ElementClick el => Some el
  | _ => None
  end.

Definition clicks (t : list Event) : list WebElement := omap click_of t.

(** The URLs loaded. *)
Definition get_of (ev : Event) : option string :=
  match ev with
  | DriverGet u => Some u
  | _ => None
  end.

Definition gets (t : list Event) : list string := omap get_of t.

Definition is_missing (e : Exception) : bool :=
  match e with
  | NoSuchElementException _ => true
  | _ => false
  end.

(** The message [scrape_products] logs for an exception that leaves its
    [try] block. *)
Definition scrape_error (e : Exception) : LogMsg :=
  match e with
  | TimeoutException _ => TimedOutWaitingForContainers
  | _ => ErrorScrapingProducts e
  end.

(** The event [go_to_next_page] logs for an exception that leaves its
    [try] block. *)
Definition advance_error (e : Exception) : Event :=
  match e with
  | TimeoutException _ => Log WARNING NextPageButtonNotFound
  | _ => Log ERROR (ErrorNavigating e)
  end.

Section MoreFields.

Context {World : Type} (E : Engine World).

(** Whether the three lookups of the container all yield a text. *)
Definition has_fields (w : World) (container : WebElement) : bool :=
  match field E w container Xpaths.PRODUCT_NAME,
        field E w container Xpaths.PRODUCT_PRICE,
        field E w container Xpaths.PRODUCT_SOLD with
  | Ok _, Ok _, Ok _ => true
  | _, _, _ => false
  end.

(** The first lookup of the container that does not yield a text
    raises [e]. *)
Definition fails_with (w : World) (container : WebElement) (e : Exception) : Prop :=
  field E w container Xpaths.PRODUCT_NAME = Raise e
  \/ (present E w container Xpaths.PRODUCT_NAME
      /\ field E w container Xpaths.PRODUCT_PRICE = Raise e)
  \/ (present E w container Xpaths.PRODUCT_NAME
      /\ present E w container Xpaths.PRODUCT_PRICE
      /\ field E w container Xpaths.PRODUCT_SOLD = Raise e).

(** Opening, writing and closing a file always go through. *)
Definition reliable_disk : Prop :=
  forall path rows w,
    (exists w', os_open E path w = (Ok tt, w'))
    /\ (exists w', os_writerows E path rows w = (None, w'))
    /\ (exists w', os_close E path w = (Ok tt, w')).

(** In world [w] the browser stays on a page that shows [containers] and
    no clickable next-page control, and the CSV file can be written: the
    waits, the sleep after a failed advance and the file calls leave the
    world as it is. *)
Definition stuck_on (self : DarazScraper) (w : World)
    (containers : list WebElement) : Prop :=
  wait_presence_of_all E 10 (Xpaths.value Xpaths.PRODUCT_CONTAINER) w
  = (Ok containers, w)
  /\ (exists msg,
         wait_clickable E 10 (Xpaths.value Xpaths.NEXT_PAGE) w
         = (Raise (TimeoutException msg), w))
  /\ (forall rows,
         os_open E (csv_file self) w = (Ok tt, w)
         /\ os_writerows E (csv_file self) rows w = (None, w)
         /\ os_close E (csv_file self) w = (Ok tt, w)).

End MoreFields.

Section MoreTraces.

Context {World : Type} (E : Engine World).

(** The value of the [try] body of the container loop: the row of the
    container, or the exception of the first lookup that fails. *)
Definition row_of (w : World) (container : WebElement) : Result Row :=
  match field E w container Xpaths.PRODUCT_NAME with
  | Ok n =>
      match field E w container Xpaths.PRODUCT_PRICE with
      | Ok p =>
          match field E w container Xpaths.PRODUCT_SOLD with
          | Ok s => Ok [n; p; s]
          | Raise e => Raise e
          end
      | Raise e => Raise e
      end
  | Raise e => Raise e
  end.

(** From [st] to [st'] the CSV file changed only by rows put at its end:
    for each batch handed to [write_to_csv] in between, in order, an
    initial part of the batch; with a reliable disk, the whole batch. *)
Definition appended (self : DarazScraper) (st st' : State World) : Prop :=
  exists new parts,
    batches (trace st') = batches (trace st) ++ new
    /\ content (files st') (csv_file self)
       = content (files st) (csv_file self) ++ concat parts
    /\ Forall2 (fun part batch => exists n, part = take n batch) parts new
    /\ (reliable_disk E -> parts = new).

End MoreTraces.

Definition is_skip_log (ev : Event) : Prop :=
  exists e, ev = Log ERROR (ProductDetailsNotFound e).

(** ** More scripted worlds *)

(** A listing of a single page with two complete cards. *)
Definition single_page : Fake.World :=
  Fake.mkWorld true
    [[Fake.full "Phone A" "Rs. 1,200" "5 sold"; Fake.full "Phone B" "Rs. 900" "12 sold"]]
    0 true true.

(** A page whose three cards all lack a field. *)
Definition bare_page : Fake.World :=
  Fake.mkWorld true
    [[Fake.mkCard None (Some "Rs. 1") (Some "1 sold");
      Fake.mkCard (Some "Phone B") None (Some "2 sold");
      Fake.mkCard (Some "Phone C") (Some "Rs. 3") None]]
    0 true true.

(** An engine like [Fake.engine] whose lookups time out on the second
    container of the page. *)
Definition flaky_engine : Engine Fake.World := {|
  driver_get := driver_get Fake.engine;
  time_sleep := time_sleep Fake.engine;
  wait_presence_of_all := wait_presence_of_all Fake.engine;
  wait_clickable := wait_clickable Fake.engine;
  find_element := fun el xpath w =>
    if (el =? 8)%nat then Raise (TimeoutException "renderer timeout")
    else find_element Fake.engine el xpath w;
  text := text Fake.engine;
  click := fun _ w => (Raise (OtherException "element click intercepted"), w);
  driver_quit := driver_quit Fake.engine;
  os_open := os_open Fake.engine;
  os_writerows := os_writerows Fake.engine;
  os_close := os_close Fake.engine
|}.

(** An engine like [Fake.engine] whose disk never fails. *)
Definition sound_engine : Engine Fake.World := {|
  driver_get := driver_get Fake.engine;
  time_sleep := time_sleep Fake.engine;
  wait_presence_of_all := wait_presence_of_all Fake.engine;
  wait_clickable := wait_clickable Fake.engine;
  find_element := find_element Fake.engine;
  text := text Fake.engine;
  click := click Fake.engine;
  driver_quit := driver_quit Fake.engine;
  os_open := fun _ w => (Ok tt, w);
  os_writerows := fun _ _ w => (None, w);
  os_close := fun _ w => (Ok tt, w)
|}.


(** A launcher whose Chrome starts and one whose Chrome does not. *)
Definition good_launcher : Launcher Fake.World :=
  mkLauncher Fake.World (fun w => (Ok tt, w)) (fun _ w => (Ok tt, w)).

Definition bad_launcher : Launcher Fake.World :=
  mkLauncher Fake.World
    (fun w => (Raise (OtherException "chromedriver not found"), w))
    (fun _ w => (Ok tt, w)).

(** ** Basic facts *)

Lemma page_calls_app (t u : list Event) :
  page_calls (t ++ u) = page_calls t ++ page_calls u.
Proof. apply omap_app. Qed.

Lemma batches_app (t u : list Event) : batches (t ++ u) = batches t ++ batches u.
Proof. apply omap_app. Qed.

Lemma opens_app (t u : list Event) : opens (t ++ u) = opens t ++ opens u.
Proof. apply omap_app. Qed.

Lemma closes_app (t u : list Event) : closes (t ++ u) = (closes t + closes u)%nat.
Proof. unfold closes. by rewrite omap_app, length_app. Qed.

(** Normalise the projections of a trace that was extended event by event. *)
Ltac project :=
  rewrite ?page_calls_app, ?batches_app, ?opens_app, ?closes_app;
  cbn [page_calls batches opens closes omap list_omap page_call batch_of close_of
       open_of length app];
  rewrite ?app_nil_r, ?Nat.add_0_r, <- ?app_assoc;
  cbn [app].

Section Facts.

Context {World : Type} (E : Engine World).

Lemma bind_ok {A B} (m : M World A) (k : A -> M World B) st a st' :
  m st = (Ok a, st') -> bind m k st = k a st'.
Proof. unfold bind. by intros ->. Qed.

Lemma bind_raise {A B} (m : M World A) (k : A -> M World B) st e st' :
  m st = (Raise e, st') -> bind m k st = (Raise e, st').
Proof. unfold bind. by intros ->. Qed.

Lemma try_ok {A} (m : M World A) h st a st' :
  m st = (Ok a, st') -> try_except m h st = (Ok a, st').
Proof. unfold try_except. by intros ->. Qed.

Lemma try_raise {A} (m : M World A) h st e st' :
  m st = (Raise e, st') -> try_except m h st = h e st'.
Proof. unfold try_except. by intros ->. Qed.

Lemma field_text_field container x (st : State World) :
  field_text E container x st = (field E (world st) container x, st).
Proof.
  unfold field_text, field, bind, observe.
  by destruct (find_element E container (Xpaths.value x) (world st)).
Qed.

(** [quit_driver] swallows whatever [driver.quit()] raises. *)
Lemma quit_driver_spec self st :
  exists st',
    quit_driver E self st = (Ok PyNone, st')
    /\ page_calls (trace st') = page_calls (trace st)
    /\ closes (trace st') = S (closes (trace st)).
Proof.
  unfold quit_driver, bind, try_except, enter, emit, call, log, ret; simpl.
  destruct (driver_quit E (world st)) as [[[]|e] w']; simpl;
    eexists; (split; [reflexivity|]); simpl; project; split; auto; lia.
Qed.

Lemma content_insert (fs : gmap string (list Row)) path rows :
  content (<[path := rows]> fs) path = rows.
Proof. unfold content. by rewrite lookup_insert_eq. Qed.

Ltac unfold_write :=
  unfold write_to_csv, with_open, open_append, writerows, bind, try_except,
    enter, emit, call, log, ret; simpl.

(** [write_to_csv] returns [None] whatever the file system does. *)
Lemma write_to_csv_spec self data st :
  exists st',
    write_to_csv E self data st = (Ok PyNone, st')
    /\ page_calls (trace st') = page_calls (trace st)
    /\ closes (trace st') = closes (trace st)
    /\ batches (trace st') = batches (trace st) ++ [data]
    /\ opens (trace st') = opens (trace st) ++ [(csv_file self, "a", "", "utf-8")].
Proof.
  unfold_write.
  destruct (os_open E (csv_file self) (world st)) as [[[]|e] w1]; simpl.
  - destruct (os_writerows E (csv_file self) data w1) as [[[n e]|] w2]; simpl;
      destruct (os_close E (csv_file self) w2) as [[[]|e'] w3]; simpl;
      eexists; (split; [reflexivity|]); simpl; project; auto.
  - eexists; (split; [reflexivity|]); simpl; project; auto.
Qed.




(** When opening, writing and closing all go through, the batch is
    appended to the file. *)
Lemma write_to_csv_success self data st w1 w2 w3 :
  os_open E (csv_file self) (world st) = (Ok tt, w1) ->
  os_writerows E (csv_file self) data w1 = (None, w2) ->
  os_close E (csv_file self) w2 = (Ok tt, w3) ->
  write_to_csv E self data st
  = (Ok PyNone,
     mkState w3
       (<[csv_file self := content (files st) (csv_file self) ++ data]> (files st))
       (trace st ++ [Enter (m_write_to_csv data);
                     FileOpen (csv_file self) "a" "" "utf-8";
                     WriteRows data;
                     Log INFO (RecordsWritten (length data));
                     FileClose (csv_file self)])).
Proof.
  intros Hopen Hwrite Hclose. unfold_write.
  rewrite Hopen; simpl. rewrite Hwrite; simpl. rewrite Hclose; simpl.
  rewrite content_insert, insert_insert_eq. by rewrite <- !app_assoc.
Qed.

(** In every case the CSV file changes by rows of the batch put after
    what it held. *)
Lemma write_to_csv_prefix self data st :
  exists n,
    content (files (snd (write_to_csv E self data st))) (csv_file self)
    = content (files st) (csv_file self) ++ take n data.
Proof.
  unfold_write.
  destruct (os_open E (csv_file self) (world st)) as [[[]|e] w1]; simpl.
  - destruct (os_writerows E (csv_file self) data w1) as [[[n e]|] w2]; simpl;
      destruct (os_close E (csv_file self) w2) as [[[]|e'] w3]; simpl;
      rewrite !content_insert.
    + by exists n.
    + exists 0%nat. by rewrite take_0, app_nil_r.
    + exists (length data). by rewrite firstn_all.
    + exists 0%nat. by rewrite take_0, app_nil_r.
  - exists 0%nat. by rewrite take_0, app_nil_r.
Qed.

Lemma logs_project (evs : list Event) :
  Forall is_log evs ->
  page_calls evs = [] /\ closes evs = 0%nat /\ batches evs = [] /\ opens evs = [].
Proof.
  induction 1 as [|ev evs (l & msg & ->) _ IH]; [done|].
  unfold page_calls, closes, batches, opens in *; simpl. tauto.
Qed.

(** One turn of the container loop: its value is [container_outcome],
    and it does nothing but log. *)
Lemma container_turn container product_data (st : State World) :
  exists evs,
    try_except
      (product_name <- field_text E container Xpaths.PRODUCT_NAME;;
       product_price <- field_text E container Xpaths.PRODUCT_PRICE;;
       product_sold <- field_text E container Xpaths.PRODUCT_SOLD;;
       ret (product_data ++ [[product_name; product_price; product_sold]]))
      (fun e =>
         match e with
         | NoSuchElementException _ =>
             log ERROR (ProductDetailsNotFound e);;
             ret product_data
         | _ => raise e
         end) st
    = (container_outcome E (world st) container product_data,
       mkState (world st) (files st) (trace st ++ evs))
    /\ Forall is_log evs.
Proof.
  assert (Hst : forall t, t = trace st -> st = mkState (world st) (files st) (t ++ [])).
  { intros t ->. rewrite app_nil_r. by destruct st. }
  unfold try_except, bind, container_outcome. rewrite field_text_field.
  destruct (field E (world st) container Xpaths.PRODUCT_NAME) as [n|[]];
    [rewrite field_text_field;
     destruct (field E (world st) container Xpaths.PRODUCT_PRICE) as [p|[]];
     [rewrite field_text_field;
      destruct (field E (world st) container Xpaths.PRODUCT_SOLD) as [s|[]]|..]|..];
    unfold log, emit, ret, raise; simpl;
    try (exists []; split; [f_equal; by apply Hst|constructor]);
    (eexists; split; [reflexivity|]; repeat constructor; by do 2 eexists).
Qed.

Lemma for_containers_collected containers product_data (st : State World) :
  exists evs,
    for_containers E containers product_data st
    = (collected E (world st) containers product_data,
       mkState (world st) (files st) (trace st ++ evs))
    /\ Forall is_log evs.
Proof.
  revert product_data st.
  induction containers as [|container rest IH]; intros product_data st; simpl.
  - exists []. rewrite app_nil_r. split; [by destruct st|constructor].
  - destruct (container_turn container product_data st) as (evs1 & Hturn & Hlog1).
    unfold bind at 1. rewrite Hturn.
    destruct (container_outcome E (world st) container product_data) as [pd|e].
    + destruct (IH pd (mkState (world st) (files st) (trace st ++ evs1)))
        as (evs2 & Hrest & Hlog2).
      rewrite Hrest; simpl. exists (evs1 ++ evs2).
      rewrite app_assoc. split; [done|by apply Forall_app].
    + by exists evs1.
Qed.

Lemma collected_app w pre post product_data :
  collected E w (pre ++ post) product_data
  = match collected E w pre product_data with
    | Ok product_data' => collected E w post product_data'
    | Raise e => Raise e
    end.
Proof.
  revert product_data. induction pre as [|c pre IH]; intros product_data; simpl; [done|].
  by destruct (container_outcome E w c product_data).
Qed.

(** A container that lacks a field leaves [product_data] as it is. *)
Lemma container_outcome_lacks w container product_data :
  lacks_a_field E w container ->
  container_outcome E w container product_data = Ok product_data.
Proof.
  intros [Hall (x & Hx & msg & Habs)]. unfold container_outcome.
  assert (Hin : forall y, y = Xpaths.PRODUCT_NAME \/ y = Xpaths.PRODUCT_PRICE
                          \/ y = Xpaths.PRODUCT_SOLD -> In y sub_fields)
    by (intros y [-> | [-> | ->]]; unfold sub_fields; simpl; tauto).
  destruct (Hall Xpaths.PRODUCT_NAME) as [[n Hn]|[m Hm]]; [auto| |by rewrite Hm].
  destruct (Hall Xpaths.PRODUCT_PRICE) as [[p Hp]|[m Hm]];
    [auto| |by rewrite Hn, Hm].
  destruct (Hall Xpaths.PRODUCT_SOLD) as [[s Hs]|[m Hm]];
    [auto| |by rewrite Hn, Hp, Hm].
  unfold sub_fields in Hx. simpl in Hx.
  destruct Hx as [<-|[<-|[<-|[]]]]; congruence.
Qed.

(** A container with its three fields adds its record. *)
Lemma container_outcome_complete w container product_data :
  complete E w container ->
  exists r,
    record_of E w container r
    /\ container_outcome E w container product_data = Ok (product_data ++ [r]).
Proof.
  intros ([n Hn] & [p Hp] & [s Hs]). exists [n; p; s]. split.
  - by exists n, p, s.
  - unfold container_outcome. by rewrite Hn, Hp, Hs.
Qed.

Lemma collected_complete w containers product_data :
  Forall (complete E w) containers ->
  exists batch,
    collected E w containers product_data = Ok (product_data ++ batch)
    /\ Forall2 (record_of E w) containers batch.
Proof.
  intros Hall. revert product_data.
  induction Hall as [|c cs Hc _ IH]; intros product_data; simpl.
  - exists []. by rewrite app_nil_r.
  - destruct (container_outcome_complete w c product_data Hc) as (r & Hr & ->).
    destruct (IH (product_data ++ [r])) as (batch & -> & Hbatch).
    exists (r :: batch). rewrite <- app_assoc. split; [done|by constructor].
Qed.

Ltac unfold_page :=
  unfold scrape_products, go_to_next_page, start_driver, sleep, bind, try_except,
    enter, emit, call, log, ret; simpl.

(** What [scrape_products] does once the wait has located containers:
    it hands the value of the container loop to [write_to_csv]. *)
Lemma scrape_products_located self st containers w1 batch :
  wait_presence_of_all E 10 (Xpaths.value Xpaths.PRODUCT_CONTAINER) (world st)
  = (Ok containers, w1) ->
  collected E w1 containers [] = Ok batch ->
  exists st',
    scrape_products E self st = (Ok PyNone, st')
    /\ batches (trace st') = batches (trace st) ++ [batch].
Proof.
  intros Hwait Hbatch. unfold_page. rewrite Hwait; simpl.
  match goal with
  | |- context [for_containers E containers [] ?s] =>
      destruct (for_containers_collected containers [] s) as (evs & -> & Hlog)
  end; simpl.
  rewrite Hbatch.
  match goal with
  | |- context [write_to_csv E self batch ?s] =>
      destruct (write_to_csv_spec self batch s) as (st' & -> & _ & _ & Hb & _)
  end; simpl in *.
  eexists; split; [reflexivity|]; simpl.
  rewrite Hb. destruct (logs_project evs Hlog) as (_ & _ & Hbe & _).
  project. by rewrite Hbe.
Qed.

(** [scrape_products] returns [None] whatever the engine does. *)
Lemma scrape_products_spec self st :
  exists st',
    scrape_products E self st = (Ok PyNone, st')
    /\ page_calls (trace st') = page_calls (trace st) ++ [m_scrape_products]
    /\ closes (trace st') = closes (trace st).
Proof.
  unfold_page.
  destruct (wait_presence_of_all E 10 _ (world st)) as [[containers|e] w1]; simpl.
  - match goal with
    | |- context [for_containers E containers [] ?s] =>
        destruct (for_containers_collected containers [] s) as (evs & -> & Hlog)
    end; simpl.
    destruct (logs_project evs Hlog) as (Hp & Hc & _ & _).
    destruct (collected E w1 containers []) as [batch|e]; simpl.
    + match goal with
      | |- context [write_to_csv E self batch ?s] =>
          destruct (write_to_csv_spec self batch s) as (st' & -> & Hp' & Hc' & _)
      end; simpl in *.
      eexists; split; [reflexivity|]; simpl.
      rewrite Hp', Hc'. project. rewrite Hp, Hc. project. auto.
    + destruct e; simpl; eexists; (split; [reflexivity|]); simpl; project;
        rewrite Hp, Hc; project; auto.
  - destruct e; simpl; eexists; (split; [reflexivity|]); simpl; project; auto.
Qed.

(** [go_to_next_page] returns [None] whatever the engine does. *)
Lemma go_to_next_page_spec self st :
  exists st',
    go_to_next_page E self st = (Ok PyNone, st')
    /\ page_calls (trace st') = page_calls (trace st) ++ [m_go_to_next_page]
    /\ closes (trace st') = closes (trace st).
Proof.
  unfold_page.
  destruct (wait_clickable E 10 _ (world st)) as [[button|e] w1]; simpl.
  - destruct (click E button w1) as [[[]|e] w2]; simpl; [|destruct e; simpl];
      eexists; (split; [reflexivity|]); simpl; project; auto.
  - destruct e; simpl; eexists; (split; [reflexivity|]); simpl; project; auto.
Qed.

(** [start_driver] returns [None] whether the page loads or not; when it
    does not, the driver is quit on the way. *)
Lemma start_driver_spec self st :
  exists st',
    start_driver E self st = (Ok PyNone, st')
    /\ page_calls (trace st') = page_calls (trace st)
    /\ closes (trace st')
       = (closes (trace st)
          + match fst (driver_get E (url self) (world st)) with
            | Ok _ => 0
            | Raise _ => 1
            end)%nat.
Proof.
  unfold_page.
  destruct (driver_get E (url self) (world st)) as [[[]|e] w1]; simpl.
  - eexists; (split; [reflexivity|]); simpl; project; auto.
  - match goal with
    | |- context [quit_driver E self ?s] =>
        destruct (quit_driver_spec self s) as (st' & -> & Hp & Hc)
    end; simpl in *.
    eexists; (split; [reflexivity|]); simpl.
    rewrite Hp, Hc. project. split; [done|lia].
Qed.

(** The page loop never leaves through [break]: it visits every index. *)
Lemma for_pages_spec self pages range st :
  exists st',
    for_pages E self pages range st = (Ok tt, st')
    /\ page_calls (trace st') = page_calls (trace st) ++ flat_map (visit pages) range
    /\ closes (trace st') = closes (trace st).
Proof.
  revert st. induction range as [|page rest IH]; intros st; simpl.
  - exists st. unfold ret. by rewrite app_nil_r.
  - unfold bind at 1, try_except at 1, bind at 1, log at 1, emit at 1.
    match goal with
    | |- context [bind (scrape_products E self) _ ?s] =>
        destruct (scrape_products_spec self s) as (st1 & Hs & Hp1 & Hc1);
        rewrite (bind_ok _ _ _ _ _ Hs)
    end; simpl in Hp1, Hc1.
    assert (exists st2,
               (if page <? pages - 1 then go_to_next_page E self else ret PyNone) st1
               = (Ok PyNone, st2)
               /\ page_calls (trace st2)
                  = page_calls (trace st) ++ visit pages page
               /\ closes (trace st2) = closes (trace st))
      as (st2 & Hn & Hp2 & Hc2).
    { unfold visit. destruct (page <? pages - 1).
      - destruct (go_to_next_page_spec self st1) as (st2 & Hn & Hp2 & Hc2).
        exists st2. rewrite Hp2, Hc2, Hp1, Hc1. project. auto.
      - exists st1. rewrite Hp1, Hc1. project. auto. }
    rewrite (bind_ok _ _ _ _ _ Hn). unfold ret at 1.
    destruct (IH st2) as (st' & -> & Hp & Hc).
    exists st'. rewrite Hp, Hc, Hp2, Hc2. by rewrite <- app_assoc.
Qed.

(** The whole run returns [None] whatever the engine does. *)
Lemma scrape_all_pages_spec self pages st :
  exists st',
    scrape_all_pages E self pages st = (Ok PyNone, st')
    /\ page_calls (trace st')
       = page_calls (trace st) ++ flat_map (visit pages) (seqZ 0 pages)
    /\ closes (trace st')
       = (closes (trace st)
          + match fst (driver_get E (url self) (world st)) with
            | Ok _ => 1
            | Raise _ => 2
            end)%nat.
Proof.
  unfold scrape_all_pages. unfold bind at 1, enter, emit.
  match goal with
  | |- context [bind (start_driver E self) _ ?s] =>
      destruct (start_driver_spec self s) as (st1 & Hs & Hp1 & Hc1);
      rewrite (bind_ok _ _ _ _ _ Hs)
  end; simpl in Hp1, Hc1.
  destruct (for_pages_spec self pages (seqZ 0 pages) st1) as (st2 & Hf & Hp2 & Hc2).
  rewrite (bind_ok _ _ _ _ _ Hf).
  destruct (quit_driver_spec self st2) as (st3 & Hq & Hp3 & Hc3).
  rewrite (bind_ok _ _ _ _ _ Hq). unfold ret.
  exists st3. split; [done|].
  rewrite Hp3, Hc3, Hp2, Hc2, Hp1, Hc1. project.
  split; [done|]. destruct (fst (driver_get E (url self) (world st))); lia.
Qed.

End Facts.

Lemma count_app p (l l' : list Method) : count p (l ++ l') = (count p l + count p l')%nat.
Proof. unfold count. by rewrite List.filter_app, length_app. Qed.


Lemma count_rounds n :
  count is_scrape (concat (replicate n [m_scrape_products; m_go_to_next_page])) = n
  /\ count is_advance (concat (replicate n [m_scrape_products; m_go_to_next_page])) = n.
Proof.
  induction n as [|n [IHs IHa]]; [done|].
  simpl. unfold count in *. simpl. by rewrite IHs, IHa.
Qed.

(** The calls of a run over [pages >= 1] pages: [pages - 1] times a scrape
    followed by an advance, then the scrape of the last page. *)
Lemma visits_of_run (pages : Z) :
  1 <= pages ->
  flat_map (visit pages) (seqZ 0 pages)
  = concat (replicate (Z.to_nat (pages - 1)) [m_scrape_products; m_go_to_next_page])
    ++ [m_scrape_products].
Proof.
  intros Hpages.
  replace pages with ((pages - 1) + 1) at 2 by lia.
  rewrite seqZ_app by lia. rewrite flat_map_app. f_equal.
  - assert (Hlt : Forall (fun page => page < pages - 1) (seqZ 0 (pages - 1)))
      by (apply Forall_seqZ; lia).
    rewrite <- (length_seqZ 0 (pages - 1)).
    induction Hlt as [|page rest Hpage _ IH]; [done|]. simpl.
    rewrite IH. unfold visit at 1.
    by destruct (Z.ltb_spec page (pages - 1)); [|lia].
  - rewrite seqZ_cons, seqZ_nil by lia. simpl. unfold visit.
    by destruct (Z.ltb_spec (0 + (pages - 1)) (pages - 1)); [lia|].
Qed.

(** ** The claims *)

(** C1.  On a page where the wait locates the containers [containers] and
    every one of them has its name, price and sold fields, [scrape_products]
    hands exactly one batch to [write_to_csv]; the batch has one record per
    container, in the order of the containers, and each record is the
    (name, price, sold) text triple of its container. *)
Theorem scrape_products_complete_page {World} (E : Engine World) self
    (st : State World) containers w1 :
  wait_presence_of_all E 10 (Xpaths.value Xpaths.PRODUCT_CONTAINER) (world st)
  = (Ok containers, w1) ->
  Forall (complete E w1) containers ->
  exists st' batch,
    scrape_products E self st = (Ok PyNone, st')
    /\ batches (trace st') = batches (trace st) ++ [batch]
    /\ length batch = length containers
    /\ Forall2 (record_of E w1) containers batch.
Proof.
  intros Hwait Hall.
  destruct (collected_complete E w1 containers [] Hall) as (batch & Hbatch & Hrec).
  destruct (scrape_products_located E self st containers w1 batch Hwait Hbatch)
    as (st' & Hrun & Hb).
  exists st', batch. repeat split; try done.
  symmetry. by eapply Forall2_length.
Qed.

Lemma scrape_products_complete_page_witness :
  let st := Fake.start Fake.online in
  wait_presence_of_all Fake.engine 10 (Xpaths.value Xpaths.PRODUCT_CONTAINER) (world st)
  = (Ok [4; 8]%nat, Fake.online)
  /\ Forall (complete Fake.engine Fake.online) [4; 8]%nat
  /\ exists st' batch,
       scrape_products Fake.engine Fake.scraper st = (Ok PyNone, st')
       /\ batches (trace st') = batches (trace st) ++ [batch]
       /\ length batch = 2%nat
       /\ Forall2 (record_of Fake.engine Fake.online) [4; 8]%nat batch.
Proof.
  assert (Hall : Forall (complete Fake.engine Fake.online) [4; 8]%nat).
  { repeat apply List.Forall_cons; [| |apply List.Forall_nil];
      (repeat split; eexists; reflexivity). }
  split; [reflexivity|]. split; [exact Hall|].
  apply (scrape_products_complete_page Fake.engine Fake.scraper
           (Fake.start Fake.online) [4; 8]%nat Fake.online); [reflexivity|exact Hall].
Defined.

(** C2, as stated, fails: when the wait for containers times out, no batch
    is handed to [write_to_csv] (the CSV file is not even created), and the
    method returns [None], not an empty batch. *)
Lemma timeout_writes_nothing :
  let st := Fake.start Fake.last_page in
  let st' := snd (scrape_products Fake.engine Fake.scraper st) in
  wait_presence_of_all Fake.engine 10 (Xpaths.value Xpaths.PRODUCT_CONTAINER) (world st)
  = (Raise (TimeoutException "no container"), Fake.last_page)
  /\ ~ (exists batch, In (Enter (m_write_to_csv batch)) (trace st'))
  /\ files st' !! csv_file Fake.scraper = None
  /\ fst (scrape_products Fake.engine Fake.scraper st) <> Ok (PyRows []).
Proof.
  repeat split.
  - intros [batch Hin]. vm_compute in Hin.
    repeat (destruct Hin as [Hin|Hin]; [discriminate Hin|]). exact Hin.
  - vm_compute. discriminate.
Qed.

(** C2, amended.  When the wait for containers times out, [scrape_products]
    logs the error and returns [None] without raising; it does not call
    [write_to_csv], so the files are left as they were. *)
Theorem scrape_products_timeout {World} (E : Engine World) self
    (st : State World) msg w1 :
  wait_presence_of_all E 10 (Xpaths.value Xpaths.PRODUCT_CONTAINER) (world st)
  = (Raise (TimeoutException msg), w1) ->
  scrape_products E self st
  = (Ok PyNone,
     mkState w1 (files st)
       (trace st ++ [Enter m_scrape_products;
                     WaitPresenceOfAll 10 (Xpaths.value Xpaths.PRODUCT_CONTAINER);
                     Log ERROR TimedOutWaitingForContainers])).
Proof.
  intros Hwait.
  unfold scrape_products, bind, try_except, enter, emit, call, log, ret; simpl.
  rewrite Hwait; simpl. by rewrite <- !app_assoc.
Qed.

Lemma scrape_products_timeout_witness :
  wait_presence_of_all Fake.engine 10 (Xpaths.value Xpaths.PRODUCT_CONTAINER) Fake.last_page
  = (Raise (TimeoutException "no container"), Fake.last_page)
  /\ scrape_products Fake.engine Fake.scraper (Fake.start Fake.last_page)
     = (Ok PyNone,
        mkState Fake.last_page ∅
          [Enter m_scrape_products;
           WaitPresenceOfAll 10 (Xpaths.value Xpaths.PRODUCT_CONTAINER);
           Log ERROR TimedOutWaitingForContainers]).
Proof.
  split; [reflexivity|].
  apply (scrape_products_timeout Fake.engine Fake.scraper (Fake.start Fake.last_page)
           "no container" Fake.last_page).
  reflexivity.
Defined.

(** C3.  A container that lacks one of its three sub-fields adds no record
    and does not stop the loop: the container loop ends as it would on the
    page without that container, whatever the other containers are.  On a
    page whose other containers are complete, the batch handed to
    [write_to_csv] holds the record of each of them, in order, and is one
    record short of the number of containers. *)
Theorem container_lacking_field_skipped {World} (E : Engine World) self
    (st : State World) pre container post w1 :
  wait_presence_of_all E 10 (Xpaths.value Xpaths.PRODUCT_CONTAINER) (world st)
  = (Ok (pre ++ container :: post), w1) ->
  lacks_a_field E w1 container ->
  (forall product_data fs t,
      fst (for_containers E (pre ++ container :: post) product_data (mkState w1 fs t))
      = fst (for_containers E (pre ++ post) product_data (mkState w1 fs t)))
  /\ (Forall (complete E w1) (pre ++ post) ->
      exists st' batch,
        scrape_products E self st = (Ok PyNone, st')
        /\ batches (trace st') = batches (trace st) ++ [batch]
        /\ Forall2 (record_of E w1) (pre ++ post) batch
        /\ S (length batch) = length (pre ++ container :: post)).
Proof.
  intros Hwait Hlacks.
  assert (Hsame : forall product_data,
             collected E w1 (pre ++ container :: post) product_data
             = collected E w1 (pre ++ post) product_data).
  { intros product_data. rewrite !collected_app.
    destruct (collected E w1 pre product_data) as [pd|e]; [|done].
    simpl. by rewrite (container_outcome_lacks E w1 container pd Hlacks). }
  split.
  - intros product_data fs t.
    destruct (for_containers_collected E (pre ++ container :: post) product_data
                (mkState w1 fs t)) as (evs1 & -> & _).
    destruct (for_containers_collected E (pre ++ post) product_data
                (mkState w1 fs t)) as (evs2 & -> & _).
    simpl. apply Hsame.
  - intros Hall.
    destruct (collected_complete E w1 (pre ++ post) [] Hall) as (batch & Hbatch & Hrec).
    rewrite <- Hsame in Hbatch.
    destruct (scrape_products_located E self st _ w1 batch Hwait Hbatch)
      as (st' & Hrun & Hb).
    exists st', batch. repeat split; try done.
    apply Forall2_length in Hrec. rewrite <- Hrec, !length_app. simpl. lia.
Qed.

Lemma container_lacking_field_skipped_witness :
  let st := Fake.start Fake.second_page in
  wait_presence_of_all Fake.engine 10 (Xpaths.value Xpaths.PRODUCT_CONTAINER) (world st)
  = (Ok ([4] ++ 8 :: [12])%nat, Fake.second_page)
  /\ lacks_a_field Fake.engine Fake.second_page 8%nat
  /\ Forall (complete Fake.engine Fake.second_page) ([4] ++ [12])%nat
  /\ fst (for_containers Fake.engine ([4] ++ 8 :: [12])%nat [] st)
     = fst (for_containers Fake.engine ([4] ++ [12])%nat [] st)
  /\ exists st' batch,
       scrape_products Fake.engine Fake.scraper st = (Ok PyNone, st')
       /\ batches (trace st') = batches (trace st) ++ [batch]
       /\ Forall2 (record_of Fake.engine Fake.second_page) ([4] ++ [12])%nat batch
       /\ S (length batch) = 3%nat.
Proof.
  assert (Hlacks : lacks_a_field Fake.engine Fake.second_page 8%nat).
  { split.
    - intros x [<-|[<-|[<-|[]]]];
        first [left; eexists; reflexivity | right; eexists; reflexivity].
    - exists Xpaths.PRODUCT_PRICE. split; [right; left; reflexivity|].
      eexists; reflexivity. }
  assert (Hall : Forall (complete Fake.engine Fake.second_page) ([4] ++ [12])%nat).
  { repeat apply List.Forall_cons; [| |apply List.Forall_nil];
      (repeat split; eexists; reflexivity). }
  destruct (container_lacking_field_skipped Fake.engine Fake.scraper
              (Fake.start Fake.second_page) [4]%nat 8%nat [12]%nat Fake.second_page
              eq_refl Hlacks) as [Hloop Hpage].
  split; [reflexivity|]. split; [exact Hlacks|]. split; [exact Hall|].
  split; [apply (Hloop [] ∅ [])|exact (Hpage Hall)].
Defined.

(** C4.  A run over [pages >= 1] pages calls [scrape_products] and
    [go_to_next_page] in this order and no more: [pages - 1] times a scrape
    followed by an advance, then the scrape of the last page, with no
    advance after it.  So there are exactly [pages] scrapes and exactly
    [pages - 1] advances, whatever the engine does. *)
Theorem run_scrapes_each_page_once {World} (E : Engine World) self pages
    (st : State World) :
  1 <= pages ->
  exists st' new,
    scrape_all_pages E self pages st = (Ok PyNone, st')
    /\ page_calls (trace st') = page_calls (trace st) ++ new
    /\ new = concat (replicate (Z.to_nat (pages - 1))
                       [m_scrape_products; m_go_to_next_page])
             ++ [m_scrape_products]
    /\ Z.of_nat (count is_scrape new) = pages
    /\ Z.of_nat (count is_advance new) = pages - 1.
Proof.
  intros Hpages.
  destruct (scrape_all_pages_spec E self pages st) as (st' & Hrun & Hcalls & _).
  rewrite (visits_of_run pages Hpages) in Hcalls.
  eexists st', _. repeat split; [exact Hrun|exact Hcalls|..];
    rewrite count_app;
    destruct (count_rounds (Z.to_nat (pages - 1))) as [Hs Ha]; rewrite ?Hs, ?Ha;
    unfold count; simpl; lia.
Qed.

Lemma run_scrapes_each_page_once_witness :
  1 <= 3
  /\ exists st' new,
       scrape_all_pages Fake.engine Fake.scraper 3 (Fake.start Fake.online)
       = (Ok PyNone, st')
       /\ page_calls (trace st') = page_calls (trace (Fake.start Fake.online)) ++ new
       /\ new = concat (replicate (Z.to_nat (3 - 1))
                          [m_scrape_products; m_go_to_next_page])
                ++ [m_scrape_products]
       /\ Z.of_nat (count is_scrape new) = 3
       /\ Z.of_nat (count is_advance new) = 3 - 1.
Proof.
  split; [lia|].
  apply (run_scrapes_each_page_once Fake.engine Fake.scraper 3 (Fake.start Fake.online)).
  lia.
Defined.

(** C5, as stated, fails: [go_to_next_page] has no [return] statement.
    Where the next-page control is clickable it does not return [True],
    and where the wait times out it does not return [False]. *)
Lemma go_to_next_page_returns_no_boolean :
  (fst (wait_clickable Fake.engine 10 (Xpaths.value Xpaths.NEXT_PAGE) Fake.online)
   = Ok 0%nat
   /\ fst (go_to_next_page Fake.engine Fake.scraper (Fake.start Fake.online))
      <> Ok (PyBool true))
  /\ (fst (wait_clickable Fake.engine 10 (Xpaths.value Xpaths.NEXT_PAGE) Fake.last_page)
      = Raise (TimeoutException "no next page")
      /\ fst (go_to_next_page Fake.engine Fake.scraper (Fake.start Fake.last_page))
         <> Ok (PyBool false)).
Proof. repeat split; vm_compute; discriminate. Qed.

(** C5, amended.  [go_to_next_page] returns [None] in every case and never
    raises.  When the next-page control becomes clickable within the wait
    of 10 and the click goes through, it clicks the control, logs, and
    sleeps 3; when the wait times out it logs a warning and neither clicks
    nor sleeps. *)
Theorem go_to_next_page_outcome {World} (E : Engine World) self (st : State World) :
  (exists st', go_to_next_page E self st = (Ok PyNone, st'))
  /\ (forall button w1 w2,
         wait_clickable E 10 (Xpaths.value Xpaths.NEXT_PAGE) (world st) = (Ok button, w1) ->
         click E button w1 = (Ok tt, w2) ->
         go_to_next_page E self st
         = (Ok PyNone,
            mkState (time_sleep E 3 w2) (files st)
              (trace st ++ [Enter m_go_to_next_page;
                            WaitClickable 10 (Xpaths.value Xpaths.NEXT_PAGE);
                            ElementClick button;
                            Log INFO NavigatedToNextPage;
                            TimeSleep 3])))
  /\ (forall msg w1,
         wait_clickable E 10 (Xpaths.value Xpaths.NEXT_PAGE) (world st)
         = (Raise (TimeoutException msg), w1) ->
         go_to_next_page E self st
         = (Ok PyNone,
            mkState w1 (files st)
              (trace st ++ [Enter m_go_to_next_page;
                            WaitClickable 10 (Xpaths.value Xpaths.NEXT_PAGE);
                            Log WARNING NextPageButtonNotFound]))).
Proof.
  split; [|split].
  - destruct (go_to_next_page_spec E self st) as (st' & Hrun & _). by exists st'.
  - intros button w1 w2 Hwait Hclick.
    unfold go_to_next_page, sleep, bind, try_except, enter, emit, call, log, ret; simpl.
    rewrite Hwait; simpl. rewrite Hclick; simpl. by rewrite <- !app_assoc.
  - intros msg w1 Hwait.
    unfold go_to_next_page, sleep, bind, try_except, enter, emit, call, log, ret; simpl.
    rewrite Hwait; simpl. by rewrite <- !app_assoc.
Qed.

Lemma go_to_next_page_outcome_witness :
  go_to_next_page Fake.engine Fake.scraper (Fake.start Fake.online)
  = (Ok PyNone,
     mkState Fake.second_page ∅
       [Enter m_go_to_next_page;
        WaitClickable 10 (Xpaths.value Xpaths.NEXT_PAGE);
        ElementClick 0%nat;
        Log INFO NavigatedToNextPage;
        TimeSleep 3])
  /\ go_to_next_page Fake.engine Fake.scraper (Fake.start Fake.last_page)
     = (Ok PyNone,
        mkState Fake.last_page ∅
          [Enter m_go_to_next_page;
           WaitClickable 10 (Xpaths.value Xpaths.NEXT_PAGE);
           Log WARNING NextPageButtonNotFound]).
Proof.
  split.
  - destruct (go_to_next_page_outcome Fake.engine Fake.scraper (Fake.start Fake.online))
      as (_ & Hclick & _).
    apply (Hclick 0%nat Fake.online Fake.second_page); reflexivity.
  - destruct (go_to_next_page_outcome Fake.engine Fake.scraper
                (Fake.start Fake.last_page)) as (_ & _ & Htimeout).
    apply (Htimeout "no next page" Fake.last_page); reflexivity.
Defined.

(** C6, at the failing input.  In every run [driver.quit()] is called once
    when [driver.get] succeeds and twice when it fails: [start_driver]
    quits the driver in its handler and [scrape_all_pages] quits it again
    after the loop.  On the listing whose URL does not load, a run over
    three pages closes the session twice. *)
Theorem failed_open_closes_twice :
  (forall World (E : Engine World) self pages (st : State World),
      closes (trace (snd (scrape_all_pages E self pages st)))
      = (closes (trace st)
         + match fst (driver_get E (url self) (world st)) with
           | Ok _ => 1
           | Raise _ => 2
           end)%nat)
  /\ fst (driver_get Fake.engine (url Fake.scraper) Fake.offline)
     = Raise (OtherException "net::ERR_NAME_NOT_RESOLVED")
  /\ closes (trace (snd (scrape_all_pages Fake.engine Fake.scraper 3
                           (Fake.start Fake.offline)))) = 2%nat.
Proof.
  split; [|split; reflexivity].
  intros World E self pages st.
  destruct (scrape_all_pages_spec E self pages st) as (st' & Hrun & _ & Hcloses).
  by rewrite Hrun.
Qed.

(** C7, at the failing input.  On the listing whose URL does not load, a
    run over five pages logs the failure, quits the driver, and goes on
    into the page loop all the same: five calls of [scrape_products] and
    four of [go_to_next_page] follow the failed open, and the run returns
    [None]. *)
Theorem failed_open_still_scrapes :
  let run := scrape_all_pages Fake.engine Fake.scraper 5 (Fake.start Fake.offline) in
  fst (driver_get Fake.engine (url Fake.scraper) Fake.offline)
  = Raise (OtherException "net::ERR_NAME_NOT_RESOLVED")
  /\ fst run = Ok PyNone
  /\ take 7 (trace (snd run))
     = [Enter (m_scrape_all_pages 5);
        Enter m_start_driver;
        Log INFO (OpeningURL (url Fake.scraper));
        DriverGet (url Fake.scraper);
        Log ERROR (FailedToOpenURL (OtherException "net::ERR_NAME_NOT_RESOLVED"));
        Enter m_quit_driver;
        DriverQuit]
  /\ page_calls (drop 7 (trace (snd run)))
     = [m_scrape_products; m_go_to_next_page;
        m_scrape_products; m_go_to_next_page;
        m_scrape_products; m_go_to_next_page;
        m_scrape_products; m_go_to_next_page;
        m_scrape_products].
Proof. repeat split. Qed.

(** C8.  [quit_driver] returns [None] whatever [driver.quit()] does, and so
    does a second call right after the first; [scrape_all_pages] returns
    [None] whatever the engine does, for every page count. *)
Theorem nothing_propagates {World} (E : Engine World) self :
  (forall st : State World, exists st', quit_driver E self st = (Ok PyNone, st'))
  /\ (forall st : State World,
         exists st', (quit_driver E self;; quit_driver E self) st = (Ok PyNone, st'))
  /\ (forall pages (st : State World),
         exists st', scrape_all_pages E self pages st = (Ok PyNone, st')).
Proof.
  split; [|split].
  - intros st. destruct (quit_driver_spec E self st) as (st' & Hq & _). by exists st'.
  - intros st.
    destruct (quit_driver_spec E self st) as (st1 & Hq1 & _).
    destruct (quit_driver_spec E self st1) as (st2 & Hq2 & _).
    exists st2. by rewrite (bind_ok _ _ _ _ _ Hq1).
  - intros pages st.
    destruct (scrape_all_pages_spec E self pages st) as (st' & Hrun & _). by exists st'.
Qed.






(** ** The scripted listing, end to end

    A run over the three pages of [Fake.listing]: two records from the
    first page, two from the second (its second card has no price), and
    no batch at all from the third, where the wait times out. *)

Example listing_run_batches :
  map length (batches (trace (snd (scrape_all_pages Fake.engine Fake.scraper 3
                                     (Fake.start Fake.online)))))
  = [2; 2]%nat.
Proof. reflexivity. Qed.

Example listing_run_file :
  files (snd (scrape_all_pages Fake.engine Fake.scraper 3 (Fake.start Fake.online)))
    !! "daraz_products.csv"
  = Some [["Phone A"; "Rs. 1,200"; "5 sold"];
          ["Phone B"; "Rs. 900"; "12 sold"];
          ["Phone C"; "Rs. 700"; "1 sold"];
          ["Phone E"; "Rs. 450"; "40 sold"]].
Proof. reflexivity. Qed.

Example listing_run_calls :
  page_calls (trace (snd (scrape_all_pages Fake.engine Fake.scraper 3
                            (Fake.start Fake.online))))
  = [m_scrape_products; m_go_to_next_page;
     m_scrape_products; m_go_to_next_page;
     m_scrape_products]
  /\ closes (trace (snd (scrape_all_pages Fake.engine Fake.scraper 3
                           (Fake.start Fake.online)))) = 1%nat.
Proof. split; reflexivity. Qed.

(** ** Further facts *)

Lemma cost_app (t u : list Event) : cost (t ++ u) = (cost t + cost u)%nat.
Proof. induction t as [|ev t IH]; simpl; [done|]. rewrite IH. lia. Qed.

Lemma page_logs_app (t u : list Event) : page_logs (t ++ u) = page_logs t ++ page_logs u.
Proof. apply omap_app. Qed.

Lemma skips_app (t u : list Event) : skips (t ++ u) = skips t ++ skips u.
Proof. apply omap_app. Qed.

Lemma clicks_app (t u : list Event) : clicks (t ++ u) = clicks t ++ clicks u.
Proof. apply omap_app. Qed.

Lemma gets_app (t u : list Event) : gets (t ++ u) = gets t ++ gets u.
Proof. apply omap_app. Qed.

Ltac project_more :=
  rewrite ?page_calls_app, ?batches_app, ?opens_app, ?closes_app, ?cost_app,
    ?page_logs_app, ?skips_app, ?clicks_app, ?gets_app;
  cbn [page_calls batches opens closes cost page_logs skips clicks gets omap
       list_omap page_call batch_of close_of open_of cost_of page_log_of skip_of
       click_of get_of length app];
  rewrite ?app_nil_r, ?Nat.add_0_r, <- ?app_assoc;
  cbn [app].

Lemma skip_logs_project (evs : list Event) :
  Forall is_skip_log evs ->
  page_calls evs = [] /\ batches evs = [] /\ page_logs evs = [] /\ cost evs = 0%nat
  /\ closes evs = 0%nat /\ length (skips evs) = length evs.
Proof.
  induction 1 as [|ev evs [e ->] _ IH]; [done|].
  unfold page_calls, batches, page_logs, closes, skips in *; simpl.
  destruct IH as (? & ? & ? & ? & ? & ?). repeat split; auto.
Qed.

Section MoreFacts.

Context {World : Type} (E : Engine World).

Lemma row_of_outcome w container product_data :
  container_outcome E w container product_data
  = match row_of E w container with
    | Ok r => Ok (product_data ++ [r])
    | Raise e => if is_missing e then Ok product_data else Raise e
    end.
Proof.
  unfold container_outcome, row_of.
  destruct (field E w container Xpaths.PRODUCT_NAME) as [n|[]]; try done.
  destruct (field E w container Xpaths.PRODUCT_PRICE) as [p|[]]; try done.
  by destruct (field E w container Xpaths.PRODUCT_SOLD) as [s|[]].
Qed.

Lemma row_of_complete w container :
  complete E w container ->
  exists r, row_of E w container = Ok r /\ record_of E w container r.
Proof.
  intros ([n Hn] & [p Hp] & [s Hs]). exists [n; p; s]. split.
  - unfold row_of. by rewrite Hn, Hp, Hs.
  - by exists n, p, s.
Qed.

Lemma row_of_lacks w container :
  lacks_a_field E w container ->
  exists e, row_of E w container = Raise e /\ is_missing e = true.
Proof.
  intros Hlacks.
  pose proof (container_outcome_lacks E w container [] Hlacks) as Hout.
  rewrite row_of_outcome in Hout.
  destruct (row_of E w container) as [r|e]; [discriminate Hout|].
  exists e. split; [done|]. by destruct (is_missing e).
Qed.

Lemma row_of_fails w container e :
  fails_with E w container e -> row_of E w container = Raise e.
Proof.
  unfold row_of.
  intros [Hn|[([n Hn] & Hp)|([n Hn] & [p Hp] & Hs)]].
  - by rewrite Hn.
  - by rewrite Hn, Hp.
  - by rewrite Hn, Hp, Hs.
Qed.

Lemma has_fields_row w container :
  has_fields E w container
  = match row_of E w container with Ok _ => true | Raise _ => false end.
Proof.
  unfold has_fields, row_of.
  destruct (field E w container Xpaths.PRODUCT_NAME); [|done].
  destruct (field E w container Xpaths.PRODUCT_PRICE); [|done].
  by destruct (field E w container Xpaths.PRODUCT_SOLD).
Qed.

(** One turn of the container loop, with the state it leaves: the state is
    left as it was unless the container is skipped, which adds one log. *)
Lemma container_turn_exact container product_data (st : State World) :
  try_except
    (product_name <- field_text E container Xpaths.PRODUCT_NAME;;
     product_price <- field_text E container Xpaths.PRODUCT_PRICE;;
     product_sold <- field_text E container Xpaths.PRODUCT_SOLD;;
     ret (product_data ++ [[product_name; product_price; product_sold]]))
    (fun e =>
       match e with
       | NoSuchElementException _ =>
           log ERROR (ProductDetailsNotFound e);;
           ret product_data
       | _ => raise e
       end) st
  = match row_of E (world st) container with
    | Ok r => (Ok (product_data ++ [r]), st)
    | Raise e =>
        if is_missing e
        then (Ok product_data,
              mkState (world st) (files st)
                (trace st ++ [Log ERROR (ProductDetailsNotFound e)]))
        else (Raise e, st)
    end.
Proof.
  unfold try_except, bind, row_of. rewrite field_text_field.
  destruct (field E (world st) container Xpaths.PRODUCT_NAME) as [n|[]]; try done.
  rewrite field_text_field.
  destruct (field E (world st) container Xpaths.PRODUCT_PRICE) as [p|[]]; try done.
  rewrite field_text_field.
  by destruct (field E (world st) container Xpaths.PRODUCT_SOLD) as [s|[]].
Qed.

(** The container loop logs skipped containers and nothing else. *)
Lemma for_containers_skip_logs containers product_data (st : State World) :
  exists evs,
    for_containers E containers product_data st
    = (collected E (world st) containers product_data,
       mkState (world st) (files st) (trace st ++ evs))
    /\ Forall is_skip_log evs.
Proof.
  revert product_data st.
  induction containers as [|container rest IH]; intros product_data st; simpl.
  - exists []. rewrite app_nil_r. split; [by destruct st|constructor].
  - unfold bind at 1. rewrite container_turn_exact, row_of_outcome.
    destruct (row_of E (world st) container) as [r|e].
    + apply IH.
    + destruct (is_missing e).
      * destruct (IH product_data
                    (mkState (world st) (files st)
                       (trace st ++ [Log ERROR (ProductDetailsNotFound e)])))
          as (evs & -> & Hlog).
        simpl. exists (Log ERROR (ProductDetailsNotFound e) :: evs).
        rewrite <- app_assoc. split; [done|]. constructor; [by exists e|done].
      * exists []. rewrite app_nil_r. split; [by destruct st|constructor].
Qed.

(** On containers that are complete or lack a field the loop keeps the
    rows of the complete ones and logs one skip for each of the others. *)
Lemma for_containers_mixed containers product_data (st : State World) :
  Forall (fun c => complete E (world st) c \/ lacks_a_field E (world st) c) containers ->
  exists batch evs,
    for_containers E containers product_data st
    = (Ok (product_data ++ batch), mkState (world st) (files st) (trace st ++ evs))
    /\ Forall2 (record_of E (world st))
         (List.filter (has_fields E (world st)) containers) batch
    /\ Forall is_skip_log evs
    /\ (length evs + length batch = length containers)%nat.
Proof.
  intros Hall. revert product_data st Hall.
  induction containers as [|container rest IH]; intros product_data st Hall; simpl.
  - exists [], []. rewrite !app_nil_r. repeat split; try constructor. by destruct st.
  - apply Forall_cons in Hall as [Hc Hrest].
    unfold bind at 1. rewrite container_turn_exact, has_fields_row.
    destruct Hc as [Hc|Hc].
    + destruct (row_of_complete _ _ Hc) as (r & -> & Hr).
      destruct (IH (product_data ++ [r]) st Hrest) as (batch & evs & -> & H2 & Hlog & Hlen).
      exists (r :: batch), evs. rewrite <- app_assoc. simpl.
      repeat split; try done; [by constructor|lia].
    + destruct (row_of_lacks _ _ Hc) as (e & -> & ->).
      destruct (IH product_data
                  (mkState (world st) (files st)
                     (trace st ++ [Log ERROR (ProductDetailsNotFound e)])) Hrest)
        as (batch & evs & -> & H2 & Hlog & Hlen).
      simpl in *. exists batch, (Log ERROR (ProductDetailsNotFound e) :: evs).
      rewrite <- app_assoc. simpl.
      repeat split; try done; [constructor; [by exists e|done]|lia].
Qed.

(** A lookup that raises anything but [NoSuchElementException] ends the
    loop with that exception. *)
Lemma for_containers_abort pre container post product_data e (st : State World) :
  Forall (fun c => complete E (world st) c \/ lacks_a_field E (world st) c) pre ->
  fails_with E (world st) container e ->
  is_missing e = false ->
  exists evs,
    for_containers E (pre ++ container :: post) product_data st
    = (Raise e, mkState (world st) (files st) (trace st ++ evs))
    /\ Forall is_skip_log evs.
Proof.
  intros Hpre Hfails Hother.
  destruct (for_containers_skip_logs (pre ++ container :: post) product_data st)
    as (evs & -> & Hlog).
  exists evs. split; [|done]. f_equal.
  clear evs Hlog. revert product_data.
  induction Hpre as [|c pre Hc _ IH]; intros product_data; simpl.
  - by rewrite row_of_outcome, (row_of_fails _ _ _ Hfails), Hother.
  - rewrite row_of_outcome. destruct Hc as [Hc|Hc].
    + destruct (row_of_complete _ _ Hc) as (r & -> & _). apply IH.
    + destruct (row_of_lacks _ _ Hc) as (e' & -> & ->). apply IH.
Qed.

End MoreFacts.

Section Disk.

Context {World : Type} (E : Engine World).

Lemma appended_same self (st st' : State World) :
  files st' = files st ->
  batches (trace st') = batches (trace st) ->
  appended E self st st'.
Proof.
  intros Hf Hb. exists [], []. rewrite Hf, Hb, !app_nil_r.
  repeat split; first [done | constructor].
Qed.

Lemma appended_trans self (st1 st2 st3 : State World) :
  appended E self st1 st2 -> appended E self st2 st3 -> appended E self st1 st3.
Proof.
  intros (new1 & parts1 & Hb1 & Hc1 & Hp1 & Hr1) (new2 & parts2 & Hb2 & Hc2 & Hp2 & Hr2).
  exists (new1 ++ new2), (parts1 ++ parts2).
  rewrite Hb2, Hb1, Hc2, Hc1, concat_app, <- !app_assoc.
  repeat split; try done.
  - by apply Forall2_app.
  - intros Hrel. by rewrite Hr1, Hr2.
Qed.

Lemma write_to_csv_appended self data (st : State World) :
  appended E self st (snd (write_to_csv E self data st)).
Proof.
  destruct (write_to_csv_prefix E self data st) as [n Hn].
  destruct (write_to_csv_spec E self data st) as (st' & Hrun & _ & _ & Hb & _).
  exists [data], [take n data]. rewrite Hrun in *; simpl in *.
  rewrite app_nil_r. repeat split; try done.
  - constructor; [by exists n|constructor].
  - intros Hrel. f_equal.
    destruct (Hrel (csv_file self) data (world st)) as [[w1 Hopen] _].
    destruct (Hrel (csv_file self) data w1) as (_ & [w2 Hwrite] & _).
    destruct (Hrel (csv_file self) data w2) as (_ & _ & [w3 Hclose]).
    rewrite (write_to_csv_success E self data st w1 w2 w3 Hopen Hwrite Hclose) in Hrun.
    injection Hrun as <-. simpl in Hn. rewrite content_insert in Hn.
    by apply app_inv_head in Hn.
Qed.

Lemma write_to_csv_more self data (st : State World) :
  let st' := snd (write_to_csv E self data st) in
  page_logs (trace st') = page_logs (trace st)
  /\ cost (trace st') = cost (trace st)
  /\ gets (trace st') = gets (trace st)
  /\ skips (trace st') = skips (trace st).
Proof.
  unfold write_to_csv, with_open, open_append, writerows, bind, try_except,
    enter, emit, call, log, ret; simpl.
  destruct (os_open E (csv_file self) (world st)) as [[[]|e] w1]; simpl.
  - destruct (os_writerows E (csv_file self) data w1) as [[[n e]|] w2]; simpl;
      destruct (os_close E (csv_file self) w2) as [[[]|e'] w3]; simpl;
      project_more; auto.
  - project_more; auto.
Qed.

Lemma quit_driver_more self (st : State World) :
  let st' := snd (quit_driver E self st) in
  files st' = files st
  /\ batches (trace st') = batches (trace st)
  /\ page_logs (trace st') = page_logs (trace st)
  /\ cost (trace st') = cost (trace st)
  /\ gets (trace st') = gets (trace st).
Proof.
  unfold quit_driver, bind, try_except, enter, emit, call, log, ret; simpl.
  destruct (driver_quit E (world st)) as [[[]|e] w']; simpl; project_more; auto.
Qed.

Lemma start_driver_more self (st : State World) :
  let st' := snd (start_driver E self st) in
  files st' = files st
  /\ batches (trace st') = batches (trace st)
  /\ page_logs (trace st') = page_logs (trace st)
  /\ (cost (trace st') <= cost (trace st) + 2)%nat
  /\ gets (trace st') = gets (trace st) ++ [url self].
Proof.
  unfold start_driver, sleep, bind, try_except, enter, emit, call, log, ret; simpl.
  destruct (driver_get E (url self) (world st)) as [[[]|e] w1]; simpl.
  - project_more. repeat split; auto; lia.
  - match goal with
    | |- context [quit_driver E self ?s] =>
        destruct (quit_driver_more self s) as (Hf & Hb & Hl & Hc & Hg);
        destruct (quit_driver_spec E self s) as (st' & Hq & _)
    end.
    rewrite Hq in *; simpl in *.
    rewrite Hf, Hb, Hl, Hc, Hg. project_more. repeat split; auto; lia.
Qed.

Lemma go_to_next_page_more self (st : State World) :
  let st' := snd (go_to_next_page E self st) in
  files st' = files st
  /\ batches (trace st') = batches (trace st)
  /\ page_logs (trace st') = page_logs (trace st)
  /\ (cost (trace st') <= cost (trace st) + 13)%nat
  /\ gets (trace st') = gets (trace st).
Proof.
  unfold go_to_next_page, sleep, bind, try_except, enter, emit, call, log, ret; simpl.
  destruct (wait_clickable E 10 _ (world st)) as [[button|e] w1]; simpl.
  - destruct (click E button w1) as [[[]|e] w2]; simpl; [|destruct e; simpl];
      project_more; repeat split; auto; lia.
  - destruct e; simpl; project_more; repeat split; auto; lia.
Qed.

Lemma scrape_products_more self (st : State World) :
  let st' := snd (scrape_products E self st) in
  appended E self st st'
  /\ page_logs (trace st') = page_logs (trace st)
  /\ cost (trace st') = (cost (trace st) + 10)%nat
  /\ gets (trace st') = gets (trace st).
Proof.
  unfold scrape_products, bind, try_except, enter, emit, call, log, ret; simpl.
  destruct (wait_presence_of_all E 10 _ (world st)) as [[containers|e] w1]; simpl.
  - match goal with
    | |- context [for_containers E containers [] ?s] =>
        destruct (for_containers_skip_logs E containers [] s) as (evs & -> & Hlog)
    end; simpl.
    destruct (skip_logs_project evs Hlog) as (_ & Hb & Hl & Hc & _ & _).
    assert (Hg : gets evs = []).
    { clear -Hlog. induction Hlog as [|ev evs [e ->] _ IH]; [done|]. exact IH. }
    destruct (collected E w1 containers []) as [batch|e]; simpl.
    + match goal with
      | |- context [write_to_csv E self batch ?s] =>
          pose proof (write_to_csv_appended self batch s) as Happ;
          destruct (write_to_csv_more self batch s) as (Hl' & Hc' & Hg' & _);
          destruct (write_to_csv_spec E self batch s) as (st' & Hw & _)
      end.
      rewrite Hw in *; simpl in *. split.
      * eapply appended_trans; [|exact Happ].
        apply appended_same; simpl; [done|]. project_more. by rewrite Hb, app_nil_r.
      * rewrite Hl', Hc', Hg'. project_more. rewrite Hl, Hc, Hg. project_more.
        repeat split; auto; lia.
    + destruct e; simpl;
        (split;
         [apply appended_same; simpl; [done|]; project_more; by rewrite Hb, ?app_nil_r
         |project_more; rewrite ?Hl, ?Hc, ?Hg; project_more; repeat split; auto; lia]).
  - destruct e; simpl;
      (split;
       [apply appended_same; simpl; [done|]; by project_more
       |project_more; repeat split; auto; lia]).
Qed.

End Disk.

Section Loop.

Context {World : Type} (E : Engine World).

(** The page loop: what it puts in the CSV file, what it logs on its own
    account and what it may spend in waits and sleeps. *)
Lemma for_pages_more self pages range (st : State World) :
  let st' := snd (for_pages E self pages range st) in
  appended E self st st'
  /\ page_logs (trace st')
     = page_logs (trace st)
       ++ map (fun page => (INFO, ScrapingPage (page + 1) pages)) range
  /\ (cost (trace st') <= cost (trace st) + sum_list (page_budget pages <$> range))%nat
  /\ gets (trace st') = gets (trace st).
Proof.
  revert st. induction range as [|page rest IH]; intros st.
  - simpl. rewrite app_nil_r. repeat split; auto; [by apply appended_same|lia].
  - assert (exists st2,
               for_pages E self pages (page :: rest) st = for_pages E self pages rest st2
               /\ appended E self st st2
               /\ page_logs (trace st2)
                  = page_logs (trace st) ++ [(INFO, ScrapingPage (page + 1) pages)]
               /\ (cost (trace st2) <= cost (trace st) + page_budget pages page)%nat
               /\ gets (trace st2) = gets (trace st))
      as (st2 & Hstep & Ha2 & Hl2 & Hc2 & Hg2).
    { simpl. unfold bind at 1, try_except at 1, bind at 1, log at 1, emit at 1.
      match goal with
      | |- context [bind (scrape_products E self) _ ?s] =>
          destruct (scrape_products_spec E self s) as (st1 & Hs & _);
          destruct (scrape_products_more E self s) as (Ha1 & Hl1 & Hc1 & Hg1);
          rewrite (bind_ok _ _ _ _ _ Hs)
      end.
      rewrite Hs in *; simpl in Ha1, Hl1, Hc1, Hg1.
      assert (exists st2,
                 (if page <? pages - 1 then go_to_next_page E self else ret PyNone) st1
                 = (Ok PyNone, st2)
                 /\ files st2 = files st1
                 /\ batches (trace st2) = batches (trace st1)
                 /\ page_logs (trace st2) = page_logs (trace st1)
                 /\ (cost (trace st2) + 10 <= cost (trace st1) + page_budget pages page)%nat
                 /\ gets (trace st2) = gets (trace st1))
        as (st2 & Hn & Hf2 & Hb2 & Hl2 & Hc2 & Hg2).
      { unfold page_budget. destruct (page <? pages - 1).
        - destruct (go_to_next_page_spec E self st1) as (st2 & Hn & _).
          destruct (go_to_next_page_more E self st1) as (Hf & Hb & Hl & Hc & Hg).
          rewrite Hn in *; simpl in *. exists st2. repeat split; auto; lia.
        - exists st1. repeat split; auto; lia. }
      rewrite (bind_ok _ _ _ _ _ Hn). unfold ret at 1.
      exists st2. split; [done|]. split; [|split; [|split]].
      - eapply appended_trans; [|apply appended_same; [exact Hf2|exact Hb2]].
        eapply appended_trans; [|exact Ha1].
        apply appended_same; simpl; [done|]. by project_more.
      - rewrite Hl2, Hl1. by project_more.
      - revert Hc1 Hc2. project_more. lia.
      - rewrite Hg2, Hg1. by project_more. }
    rewrite Hstep. destruct (IH st2) as (Ha & Hl & Hc & Hg).
    split; [|split; [|split]].
    + by eapply appended_trans.
    + rewrite Hl, Hl2. by rewrite <- app_assoc.
    + replace (sum_list (page_budget pages <$> page :: rest))
        with (page_budget pages page + sum_list (page_budget pages <$> rest))%nat
        by done.
      lia.
    + by rewrite Hg, Hg2.
Qed.

(** The same for the whole run. *)
Lemma scrape_all_pages_more self pages (st : State World) :
  let st' := snd (scrape_all_pages E self pages st) in
  appended E self st st'
  /\ page_logs (trace st')
     = page_logs (trace st)
       ++ map (fun page => (INFO, ScrapingPage (page + 1) pages)) (seqZ 0 pages)
  /\ (cost (trace st')
      <= cost (trace st) + 2 + sum_list (page_budget pages <$> seqZ 0 pages))%nat
  /\ gets (trace st') = gets (trace st) ++ [url self].
Proof.
  assert (exists st3,
             scrape_all_pages E self pages st = (Ok PyNone, st3)
             /\ appended E self st st3
             /\ page_logs (trace st3)
                = page_logs (trace st)
                  ++ map (fun page => (INFO, ScrapingPage (page + 1) pages)) (seqZ 0 pages)
             /\ (cost (trace st3)
                 <= cost (trace st) + 2 + sum_list (page_budget pages <$> seqZ 0 pages))%nat
             /\ gets (trace st3) = gets (trace st) ++ [url self])
    as (st3 & -> & Hall); [|exact Hall].
  unfold scrape_all_pages. unfold bind at 1, enter, emit.
  match goal with
  | |- context [bind (start_driver E self) _ ?s] =>
      destruct (start_driver_spec E self s) as (st1 & Hs & _);
      destruct (start_driver_more E self s) as (Hf1 & Hb1 & Hl1 & Hc1 & Hg1);
      rewrite (bind_ok _ _ _ _ _ Hs)
  end.
  rewrite Hs in *; simpl in Hf1, Hb1, Hl1, Hc1, Hg1.
  destruct (for_pages_spec E self pages (seqZ 0 pages) st1) as (st2 & Hf & _).
  destruct (for_pages_more self pages (seqZ 0 pages) st1) as (Ha2 & Hl2 & Hc2 & Hg2).
  rewrite (bind_ok _ _ _ _ _ Hf). rewrite Hf in *; simpl in Ha2, Hl2, Hc2, Hg2.
  destruct (quit_driver_spec E self st2) as (st3 & Hq & _).
  destruct (quit_driver_more E self st2) as (Hf3 & Hb3 & Hl3 & Hc3 & Hg3).
  rewrite (bind_ok _ _ _ _ _ Hq). rewrite Hq in *; simpl in Hf3, Hb3, Hl3, Hc3, Hg3.
  unfold ret. exists st3. split; [done|].
  split; [|split; [|split]].
  - eapply appended_trans; [|apply appended_same; [exact Hf3|exact Hb3]].
    eapply appended_trans; [|exact Ha2].
    apply appended_same; [done|]. revert Hb1. by project_more.
  - rewrite Hl3, Hl2, Hl1. by project_more.
  - revert Hc1 Hc2. rewrite Hc3. project_more. lia.
  - rewrite Hg3, Hg2, Hg1. by project_more.
Qed.

End Loop.

(** What a run over [pages >= 1] pages may spend: 10 for each page and 13
    more for each page but the last. *)
Lemma budget_of_run (pages : Z) :
  1 <= pages ->
  Z.of_nat (sum_list (page_budget pages <$> seqZ 0 pages)) = 10 * pages + 13 * (pages - 1).
Proof.
  intros Hpages.
  replace pages with ((pages - 1) + 1) at 2 by lia.
  rewrite seqZ_app by lia. rewrite fmap_app, sum_list_with_app.
  assert (Hlast : sum_list (page_budget pages <$> seqZ (0 + (pages - 1)) 1) = 10%nat).
  { rewrite seqZ_cons, seqZ_nil by lia. simpl. unfold page_budget.
    by destruct (Z.ltb_spec (0 + (pages - 1)) (pages - 1)); [lia|]. }
  assert (Hfirst : sum_list (page_budget pages <$> seqZ 0 (pages - 1))
                   = (23 * length (seqZ 0 (pages - 1)))%nat).
  { assert (Hlt : Forall (fun page => page < pages - 1) (seqZ 0 (pages - 1)))
      by (apply Forall_seqZ; lia).
    induction Hlt as [|page rest Hpage _ IH]; [done|].
    cbn [fmap list_fmap sum_list_with length]. fold (fmap (page_budget pages) rest).
    rewrite IH. unfold page_budget at 1, id.
    destruct (Z.ltb_spec page (pages - 1)); lia. }
  rewrite Hfirst, Hlast, length_seqZ. lia.
Qed.

(** ** Further properties *)

(** X1.  No two members of [Xpaths] have the same value, so none is an
    alias of another; the three sub-field paths are relative to the
    container (they start with [.//]), the container and next-page paths
    search the whole document (they start with [//]). *)
Theorem xpaths_distinct_and_scoped :
  (forall x y, Xpaths.value x = Xpaths.value y -> x = y)
  /\ Forall (fun x => String.prefix ".//" (Xpaths.value x) = true) sub_fields
  /\ String.prefix "//" (Xpaths.value Xpaths.PRODUCT_CONTAINER) = true
  /\ String.prefix "//" (Xpaths.value Xpaths.NEXT_PAGE) = true.
Proof.
  split; [|repeat split; repeat constructor].
  intros x y Heq. destruct x, y; try reflexivity; vm_compute in Heq; discriminate Heq.
Qed.

Lemma xpaths_distinct_and_scoped_witness :
  Xpaths.value Xpaths.PRODUCT_SOLD = Xpaths.value Xpaths.PRODUCT_SOLD
  /\ Xpaths.PRODUCT_SOLD = Xpaths.PRODUCT_SOLD.
Proof.
  split; [reflexivity|].
  destruct xpaths_distinct_and_scoped as [Hinj _].
  apply (Hinj Xpaths.PRODUCT_SOLD Xpaths.PRODUCT_SOLD). reflexivity.
Defined.

(** X2.  [start_driver] sleeps 2 only after [driver.get] went through, and
    then does not quit the driver.  When [driver.get] raises it logs the
    error, calls [driver.quit()] once, does not sleep, and returns [None]
    like on success. *)
Theorem start_driver_outcome {World} (E : Engine World) self (st : State World) :
  (forall w1,
      driver_get E (url self) (world st) = (Ok tt, w1) ->
      start_driver E self st
      = (Ok PyNone,
         mkState (time_sleep E 2 w1) (files st)
           (trace st ++ [Enter m_start_driver;
                         Log INFO (OpeningURL (url self));
                         DriverGet (url self);
                         TimeSleep 2])))
  /\ (forall e w1,
         driver_get E (url self) (world st) = (Raise e, w1) ->
         start_driver E self st
         = (Ok PyNone,
            mkState (snd (driver_quit E w1)) (files st)
              (trace st ++ [Enter m_start_driver;
                            Log INFO (OpeningURL (url self));
                            DriverGet (url self);
                            Log ERROR (FailedToOpenURL e);
                            Enter m_quit_driver;
                            DriverQuit;
                            match fst (driver_quit E w1) with
                            | Ok _ => Log INFO DriverClosed
                            | Raise e' => Log ERROR (ErrorClosingDriver e')
                            end]))).
Proof.
  split.
  - intros w1 Hget.
    unfold start_driver, sleep, bind, try_except, enter, emit, call, log, ret; simpl.
    rewrite Hget; simpl. by rewrite <- !app_assoc.
  - intros e w1 Hget.
    unfold start_driver, quit_driver, sleep, bind, try_except, enter, emit, call,
      log, ret; simpl.
    rewrite Hget; simpl.
    destruct (driver_quit E w1) as [[[]|e'] w2]; simpl; by rewrite <- !app_assoc.
Qed.

Lemma start_driver_outcome_witness :
  start_driver Fake.engine Fake.scraper (Fake.start Fake.online)
  = (Ok PyNone,
     mkState Fake.online ∅
       [Enter m_start_driver;
        Log INFO (OpeningURL (url Fake.scraper));
        DriverGet (url Fake.scraper);
        TimeSleep 2])
  /\ closes (trace (snd (start_driver Fake.engine Fake.scraper (Fake.start Fake.offline))))
     = 1%nat.
Proof.
  destruct (start_driver_outcome Fake.engine Fake.scraper (Fake.start Fake.online))
    as [Hok _].
  destruct (start_driver_outcome Fake.engine Fake.scraper (Fake.start Fake.offline))
    as [_ Hfail].
  split.
  - apply (Hok Fake.online). reflexivity.
  - rewrite (Hfail (OtherException "net::ERR_NAME_NOT_RESOLVED") Fake.offline eq_refl).
    reflexivity.
Defined.

(** X3.  On a page whose containers each are complete or lack a field,
    [scrape_products] calls [write_to_csv] once, also when no container is
    complete; the batch holds the records of the complete containers in
    page order, and one "Product details not found" error is logged for
    each of the other containers. *)
Theorem scrape_products_mixed_page {World} (E : Engine World) self
    (st : State World) containers w1 :
  wait_presence_of_all E 10 (Xpaths.value Xpaths.PRODUCT_CONTAINER) (world st)
  = (Ok containers, w1) ->
  Forall (fun c => complete E w1 c \/ lacks_a_field E w1 c) containers ->
  exists st' batch,
    scrape_products E self st = (Ok PyNone, st')
    /\ batches (trace st') = batches (trace st) ++ [batch]
    /\ Forall2 (record_of E w1) (List.filter (has_fields E w1) containers) batch
    /\ (length (skips (trace st')) + length batch
        = length (skips (trace st)) + length containers)%nat.
Proof.
  intros Hwait Hall.
  unfold scrape_products, bind, try_except, enter, emit, call, log, ret; simpl.
  rewrite Hwait; simpl.
  match goal with
  | |- context [for_containers E containers [] ?s] =>
      destruct (for_containers_mixed E containers [] s Hall)
        as (batch & evs & -> & Hrec & Hlog & Hlen)
  end; simpl in *.
  destruct (skip_logs_project evs Hlog) as (_ & Hb & _ & _ & _ & Hs).
  match goal with
  | |- context [write_to_csv E self batch ?s] =>
      destruct (write_to_csv_spec E self batch s) as (st' & Hw & _ & _ & Hb' & _);
      destruct (write_to_csv_more E self batch s) as (_ & _ & _ & Hs')
  end.
  rewrite Hw in *; simpl in *.
  exists st', batch. repeat split; try done.
  - rewrite Hb'. project_more. by rewrite Hb.
  - rewrite Hs'. project_more. rewrite length_app, Hs. lia.
Qed.

Lemma scrape_products_mixed_page_witness :
  let st := Fake.start bare_page in
  wait_presence_of_all Fake.engine 10 (Xpaths.value Xpaths.PRODUCT_CONTAINER) (world st)
  = (Ok [4; 8; 12]%nat, bare_page)
  /\ Forall (fun c => complete Fake.engine bare_page c \/ lacks_a_field Fake.engine bare_page c)
       [4; 8; 12]%nat
  /\ exists st' batch,
       scrape_products Fake.engine Fake.scraper st = (Ok PyNone, st')
       /\ batches (trace st') = batches (trace st) ++ [batch]
       /\ Forall2 (record_of Fake.engine bare_page)
            (List.filter (has_fields Fake.engine bare_page) [4; 8; 12]%nat) batch
       /\ (length (skips (trace st')) + length batch
           = length (skips (trace st)) + 3)%nat.
Proof.
  assert (Hlacks : forall c x,
             In c [4; 8; 12]%nat ->
             field Fake.engine bare_page c x
             = Raise (NoSuchElementException (Xpaths.value x)) ->
             In x sub_fields ->
             lacks_a_field Fake.engine bare_page c).
  { intros c x Hc Hx Hin. split.
    - intros y Hy. simpl in Hc, Hy.
      destruct Hc as [<-|[<-|[<-|[]]]]; destruct Hy as [<-|[<-|[<-|[]]]];
        first [left; eexists; reflexivity | right; eexists; reflexivity].
    - exists x. split; [done|]. by eexists. }
  assert (Hall : Forall (fun c => complete Fake.engine bare_page c
                                  \/ lacks_a_field Fake.engine bare_page c)
                   [4; 8; 12]%nat).
  { repeat apply List.Forall_cons; [| | |apply List.Forall_nil]; right.
    - apply (Hlacks 4%nat Xpaths.PRODUCT_NAME); [simpl; tauto|reflexivity|simpl; tauto].
    - apply (Hlacks 8%nat Xpaths.PRODUCT_PRICE); [simpl; tauto|reflexivity|simpl; tauto].
    - apply (Hlacks 12%nat Xpaths.PRODUCT_SOLD); [simpl; tauto|reflexivity|simpl; tauto]. }
  split; [reflexivity|]. split; [exact Hall|].
  apply (scrape_products_mixed_page Fake.engine Fake.scraper (Fake.start bare_page)
           [4; 8; 12]%nat bare_page); [reflexivity|exact Hall].
Defined.

(** X4.  When a lookup in some container raises anything other than
    [NoSuchElementException], the page is given up: [write_to_csv] is not
    called, so the records already collected from the containers before it
    are dropped and the CSV file is neither created nor changed; the
    method logs the error (as a timeout of the container wait when the
    exception is a [TimeoutException]) and returns [None]. *)
Theorem scrape_products_lookup_error_drops_page {World} (E : Engine World) self
    (st : State World) pre container post w1 e :
  wait_presence_of_all E 10 (Xpaths.value Xpaths.PRODUCT_CONTAINER) (world st)
  = (Ok (pre ++ container :: post), w1) ->
  Forall (fun c => complete E w1 c \/ lacks_a_field E w1 c) pre ->
  fails_with E w1 container e ->
  is_missing e = false ->
  exists st',
    scrape_products E self st = (Ok PyNone, st')
    /\ batches (trace st') = batches (trace st)
    /\ opens (trace st') = opens (trace st)
    /\ files st' !! csv_file self = files st !! csv_file self
    /\ last (trace st') = Some (Log ERROR (scrape_error e)).
Proof.
  intros Hwait Hpre Hfails Hother.
  unfold scrape_products, bind, try_except, enter, emit, call, log, ret; simpl.
  rewrite Hwait; simpl.
  match goal with
  | |- context [for_containers E _ [] ?s] =>
      destruct (for_containers_abort E pre container post [] e s Hpre Hfails Hother)
        as (evs & -> & Hlog)
  end; simpl.
  destruct (skip_logs_project evs Hlog) as (_ & Hb & _).
  assert (Ho : opens evs = []).
  { clear -Hlog. induction Hlog as [|ev evs [e' ->] _ IH]; [done|]. exact IH. }
  destruct e as [msg|msg|msg]; [discriminate Hother|..]; simpl;
    eexists; (split; [reflexivity|]); simpl;
    (split; [project_more; by rewrite Hb, ?app_nil_r|]);
    (split; [project_more; by rewrite Ho, ?app_nil_r|]); (split; [done|]);
    apply last_snoc.
Qed.

Lemma scrape_products_lookup_error_drops_page_witness :
  let st := Fake.start Fake.second_page in
  wait_presence_of_all flaky_engine 10 (Xpaths.value Xpaths.PRODUCT_CONTAINER) (world st)
  = (Ok ([4] ++ 8 :: [12])%nat, Fake.second_page)
  /\ fails_with flaky_engine Fake.second_page 8%nat (TimeoutException "renderer timeout")
  /\ exists st',
       scrape_products flaky_engine Fake.scraper st = (Ok PyNone, st')
       /\ batches (trace st') = batches (trace st)
       /\ opens (trace st') = opens (trace st)
       /\ files st' !! csv_file Fake.scraper = files st !! csv_file Fake.scraper
       /\ last (trace st') = Some (Log ERROR TimedOutWaitingForContainers).
Proof.
  assert (Hfails : fails_with flaky_engine Fake.second_page 8%nat
                     (TimeoutException "renderer timeout")) by (left; reflexivity).
  split; [reflexivity|]. split; [exact Hfails|].
  apply (scrape_products_lookup_error_drops_page flaky_engine Fake.scraper
           (Fake.start Fake.second_page) [4]%nat 8%nat [12]%nat Fake.second_page
           (TimeoutException "renderer timeout")); [reflexivity| |exact Hfails|reflexivity].
  apply List.Forall_cons; [|apply List.Forall_nil].
  left. repeat split; eexists; reflexivity.
Defined.

(** X5.  When the next-page control is clickable but the click raises,
    [go_to_next_page] logs the error and returns [None] without sleeping;
    when the wait raises, it does not click.  A [TimeoutException] is
    logged as the warning that the button was not found, wherever it comes
    from; any other exception as an error. *)
Theorem go_to_next_page_errors {World} (E : Engine World) self (st : State World) :
  (forall button e w1 w2,
      wait_clickable E 10 (Xpaths.value Xpaths.NEXT_PAGE) (world st) = (Ok button, w1) ->
      click E button w1 = (Raise e, w2) ->
      go_to_next_page E self st
      = (Ok PyNone,
         mkState w2 (files st)
           (trace st ++ [Enter m_go_to_next_page;
                         WaitClickable 10 (Xpaths.value Xpaths.NEXT_PAGE);
                         ElementClick button;
                         advance_error e])))
  /\ (forall e w1,
         wait_clickable E 10 (Xpaths.value Xpaths.NEXT_PAGE) (world st) = (Raise e, w1) ->
         go_to_next_page E self st
         = (Ok PyNone,
            mkState w1 (files st)
              (trace st ++ [Enter m_go_to_next_page;
                            WaitClickable 10 (Xpaths.value Xpaths.NEXT_PAGE);
                            advance_error e]))).
Proof.
  split.
  - intros button e w1 w2 Hwait Hclick.
    unfold go_to_next_page, sleep, bind, try_except, enter, emit, call, log, ret; simpl.
    rewrite Hwait; simpl. rewrite Hclick; simpl.
    destruct e; simpl; by rewrite <- !app_assoc.
  - intros e w1 Hwait.
    unfold go_to_next_page, sleep, bind, try_except, enter, emit, call, log, ret; simpl.
    rewrite Hwait; simpl. destruct e; simpl; by rewrite <- !app_assoc.
Qed.

Lemma go_to_next_page_errors_witness :
  go_to_next_page flaky_engine Fake.scraper (Fake.start Fake.online)
  = (Ok PyNone,
     mkState Fake.online ∅
       [Enter m_go_to_next_page;
        WaitClickable 10 (Xpaths.value Xpaths.NEXT_PAGE);
        ElementClick 0%nat;
        Log ERROR (ErrorNavigating (OtherException "element click intercepted"))]).
Proof.
  destruct (go_to_next_page_errors flaky_engine Fake.scraper (Fake.start Fake.online))
    as [Hclick _].
  apply (Hclick 0%nat (OtherException "element click intercepted") Fake.online Fake.online);
    reflexivity.
Defined.


(** X7.  On a disk that never fails, after a run the CSV file holds what
    it held before followed by the batches handed to [write_to_csv] during
    the run, one after the other: no record of a batch is lost, doubled or
    reordered on its way to the file. *)
Theorem run_file_holds_batches {World} (E : Engine World) self pages (st : State World) :
  reliable_disk E ->
  let st' := snd (scrape_all_pages E self pages st) in
  exists new,
    batches (trace st') = batches (trace st) ++ new
    /\ content (files st') (csv_file self)
       = content (files st) (csv_file self) ++ concat new.
Proof.
  intros Hrel.
  destruct (scrape_all_pages_more E self pages st)
    as ((new & parts & Hb & Hcontent & _ & Hparts) & _).
  exists new. split; [exact Hb|]. by rewrite <- (Hparts Hrel).
Qed.

Lemma run_file_holds_batches_witness :
  let st := mkState Fake.online Fake.disk [] in
  let st' := snd (scrape_all_pages sound_engine Fake.scraper 3 st) in
  reliable_disk sound_engine
  /\ exists new,
       batches (trace st') = batches (trace st) ++ new
       /\ content (files st') (csv_file Fake.scraper)
          = content (files st) (csv_file Fake.scraper) ++ concat new.
Proof.
  intros st st'.
  assert (Hrel : reliable_disk sound_engine).
  { intros path rows w. repeat split; by exists w. }
  split; [exact Hrel|].
  apply (run_file_holds_batches sound_engine Fake.scraper 3 st Hrel).
Defined.

(** X8.  With a page count of zero or less the loop body never runs: no
    page is scraped, no advance is made and the CSV file is neither
    created nor changed, but the URL is still loaded and the session is
    still closed. *)
Theorem run_without_pages {World} (E : Engine World) self pages (st : State World) :
  pages <= 0 ->
  exists st',
    scrape_all_pages E self pages st = (Ok PyNone, st')
    /\ page_calls (trace st') = page_calls (trace st)
    /\ batches (trace st') = batches (trace st)
    /\ files st' !! csv_file self = files st !! csv_file self
    /\ gets (trace st') = gets (trace st) ++ [url self]
    /\ (closes (trace st) < closes (trace st'))%nat.
Proof.
  intros Hpages.
  destruct (scrape_all_pages_spec E self pages st) as (st' & Hrun & Hcalls & Hcloses).
  rewrite seqZ_nil in Hcalls by done. simpl in Hcalls. rewrite app_nil_r in Hcalls.
  exists st'. split; [exact Hrun|]. split; [exact Hcalls|].
  destruct (scrape_all_pages_more E self pages st) as (_ & _ & _ & Hgets).
  rewrite Hrun in Hgets; simpl in Hgets.
  assert (Hsame : files st' = files st /\ batches (trace st') = batches (trace st)).
  { revert Hrun. unfold scrape_all_pages. rewrite seqZ_nil by done. simpl.
    unfold bind at 1, enter, emit.
    match goal with
    | |- context [bind (start_driver E self) _ ?s] =>
        destruct (start_driver_spec E self s) as (st1 & Hs & _);
        destruct (start_driver_more E self s) as (Hf1 & Hb1 & _);
        rewrite (bind_ok _ _ _ _ _ Hs)
    end.
    rewrite Hs in *; simpl in Hf1, Hb1.
    unfold bind at 1, ret at 1.
    destruct (quit_driver_spec E self st1) as (st2 & Hq & _).
    destruct (quit_driver_more E self st1) as (Hf2 & Hb2 & _).
    rewrite (bind_ok _ _ _ _ _ Hq). rewrite Hq in *; simpl in Hf2, Hb2.
    unfold ret. intros [= <-]. split; [congruence|].
    rewrite Hb2, Hb1. by project_more. }
  destruct Hsame as [Hf Hb]. repeat split; try done; [by rewrite Hf|].
  rewrite Hcloses. destruct (fst (driver_get E (url self) (world st))); lia.
Qed.

Lemma run_without_pages_witness :
  0 <= 0
  /\ exists st',
       scrape_all_pages Fake.engine Fake.scraper 0 (Fake.start Fake.online)
       = (Ok PyNone, st')
       /\ page_calls (trace st') = []
       /\ batches (trace st') = []
       /\ files st' !! csv_file Fake.scraper = None
       /\ gets (trace st') = [url Fake.scraper]
       /\ (0 < closes (trace st'))%nat.
Proof.
  split; [lia|].
  apply (run_without_pages Fake.engine Fake.scraper 0 (Fake.start Fake.online)). lia.
Defined.

(** X9.  The page loop logs "Scraping page i/pages" once for each index,
    numbered from 1 to [pages] in order, and never logs "Error scraping
    page": every exception is caught inside [scrape_products] and
    [go_to_next_page], so the [except] clause of the loop, with its
    [break], is never reached. *)
Theorem run_page_logs {World} (E : Engine World) self pages (st : State World) :
  let st' := snd (scrape_all_pages E self pages st) in
  exists new,
    page_logs (trace st') = page_logs (trace st) ++ new
    /\ new = map (fun page => (INFO, ScrapingPage (page + 1) pages)) (seqZ 0 pages)
    /\ Z.of_nat (length new) = Z.max 0 pages
    /\ forall l page e, ~ In (l, ErrorScrapingPage page e) new.
Proof.
  destruct (scrape_all_pages_more E self pages st) as (_ & Hlogs & _).
  eexists. split; [exact Hlogs|]. split; [done|]. split.
  - rewrite length_map, length_seqZ. lia.
  - intros l page e Hin. apply in_map_iff in Hin as (page' & Heq & _). discriminate Heq.
Qed.

(** X10.  The waits and sleeps of a run over [pages >= 1] pages add up to
    at most [2 + 10 * pages + 13 * (pages - 1)]: a sleep of 2 after loading
    the URL, a wait of at most 10 on every page, and a wait of at most 10
    and a sleep of 3 for every advance. *)
Theorem run_time_budget {World} (E : Engine World) self pages (st : State World) :
  1 <= pages ->
  let st' := snd (scrape_all_pages E self pages st) in
  Z.of_nat (cost (trace st'))
  <= Z.of_nat (cost (trace st)) + 2 + 10 * pages + 13 * (pages - 1).
Proof.
  intros Hpages.
  destruct (scrape_all_pages_more E self pages st) as (_ & _ & Hcost & _).
  pose proof (budget_of_run pages Hpages) as Hbudget. simpl. lia.
Qed.

Lemma run_time_budget_witness :
  1 <= 3
  /\ Z.of_nat (cost (trace (snd (scrape_all_pages Fake.engine Fake.scraper 3
                                   (Fake.start Fake.online)))))
     <= Z.of_nat (cost (trace (Fake.start Fake.online))) + 2 + 10 * 3 + 13 * (3 - 1).
Proof.
  split; [lia|].
  apply (run_time_budget Fake.engine Fake.scraper 3 (Fake.start Fake.online)). lia.
Defined.

Section Stuck.

Context {World : Type} (E : Engine World).

Lemma scrape_products_stuck self w containers batch (st : State World) :
  stuck_on E self w containers ->
  collected E w containers [] = Ok batch ->
  world st = w ->
  exists st',
    scrape_products E self st = (Ok PyNone, st')
    /\ world st' = w
    /\ content (files st') (csv_file self) = content (files st) (csv_file self) ++ batch.
Proof.
  intros (Hwait & _ & Hdisk) Hbatch Hw.
  unfold scrape_products, bind, try_except, enter, emit, call, log, ret; simpl.
  rewrite Hw, Hwait; simpl.
  match goal with
  | |- context [for_containers E containers [] ?s] =>
      destruct (for_containers_skip_logs E containers [] s) as (evs & -> & _)
  end; simpl.
  rewrite Hbatch.
  destruct (Hdisk batch) as (Hopen & Hwrite & Hclose).
  erewrite write_to_csv_success; [|exact Hopen|exact Hwrite|exact Hclose]; simpl.
  eexists. split; [reflexivity|]. simpl. split; [done|]. by rewrite content_insert.
Qed.

Lemma go_to_next_page_stuck self w containers (st : State World) :
  stuck_on E self w containers ->
  world st = w ->
  exists st',
    go_to_next_page E self st = (Ok PyNone, st')
    /\ world st' = w
    /\ files st' = files st.
Proof.
  intros (_ & [msg Hwait] & _) Hw.
  unfold go_to_next_page, bind, try_except, enter, emit, call, log, ret; simpl.
  rewrite Hw, Hwait; simpl. by eexists.
Qed.

Lemma for_pages_stuck self pages w containers batch range (st : State World) :
  stuck_on E self w containers ->
  collected E w containers [] = Ok batch ->
  world st = w ->
  content (files (snd (for_pages E self pages range st))) (csv_file self)
  = content (files st) (csv_file self) ++ concat (replicate (length range) batch).
Proof.
  intros Hstuck Hbatch. revert st.
  induction range as [|page rest IH]; intros st Hw; simpl.
  - by rewrite app_nil_r.
  - unfold bind at 1, try_except at 1, bind at 1, log at 1, emit at 1.
    match goal with
    | |- context [bind (scrape_products E self) _ ?s] =>
        destruct (scrape_products_stuck self w containers batch s Hstuck Hbatch Hw)
          as (st1 & Hs & Hw1 & Hc1);
        rewrite (bind_ok _ _ _ _ _ Hs)
    end; simpl in Hc1.
    assert (exists st2,
               (if page <? pages - 1 then go_to_next_page E self else ret PyNone) st1
               = (Ok PyNone, st2)
               /\ world st2 = w /\ files st2 = files st1)
      as (st2 & Hn & Hw2 & Hf2).
    { destruct (page <? pages - 1).
      - by apply (go_to_next_page_stuck self w containers).
      - by exists st1. }
    rewrite (bind_ok _ _ _ _ _ Hn). unfold ret at 1.
    rewrite (IH st2 Hw2), Hf2, Hc1. by rewrite <- app_assoc.
Qed.

End Stuck.

(** X11.  The loop does not look at what [go_to_next_page] achieved: when
    the browser stays on one page (the next-page control never becomes
    clickable), a run over [pages] pages scrapes that page [pages] times
    and, the disk permitting, appends its records to the CSV file [pages]
    times over. *)
Theorem run_stuck_on_one_page {World} (E : Engine World) self pages
    (st : State World) w0 w containers :
  driver_get E (url self) (world st) = (Ok tt, w0) ->
  time_sleep E 2 w0 = w ->
  stuck_on E self w containers ->
  Forall (complete E w) containers ->
  exists batch,
    Forall2 (record_of E w) containers batch
    /\ content (files (snd (scrape_all_pages E self pages st))) (csv_file self)
       = content (files st) (csv_file self)
         ++ concat (replicate (Z.to_nat pages) batch).
Proof.
  intros Hget Hsleep Hstuck Hall.
  destruct (collected_complete E w containers [] Hall) as (batch & Hbatch & Hrec).
  exists batch. split; [exact Hrec|].
  unfold scrape_all_pages. unfold bind at 1, enter, emit.
  match goal with
  | |- context [bind (start_driver E self) _ ?s] =>
      assert (Hs : start_driver E self s
                   = (Ok PyNone,
                      mkState w (files st)
                        (trace s ++ [Enter m_start_driver;
                                     Log INFO (OpeningURL (url self));
                                     DriverGet (url self);
                                     TimeSleep 2])))
  end.
  { unfold start_driver, sleep, bind, try_except, enter, emit, call, log, ret; simpl.
    rewrite Hget; simpl. rewrite Hsleep. by rewrite <- !app_assoc. }
  rewrite (bind_ok _ _ _ _ _ Hs).
  match goal with
  | |- context [bind (for_pages E self pages (seqZ 0 pages)) _ ?s] =>
      pose proof (for_pages_stuck E self pages w containers batch (seqZ 0 pages) s
                    Hstuck Hbatch eq_refl) as Hloop;
      destruct (for_pages_spec E self pages (seqZ 0 pages) s) as (st2 & Hf & _)
  end.
  rewrite (bind_ok _ _ _ _ _ Hf). rewrite Hf in Hloop; simpl in Hloop.
  destruct (quit_driver_spec E self st2) as (st3 & Hq & _).
  destruct (quit_driver_more E self st2) as (Hf3 & _).
  rewrite (bind_ok _ _ _ _ _ Hq). rewrite Hq in Hf3; simpl in Hf3.
  unfold ret; simpl. by rewrite Hf3, Hloop, length_seqZ.
Qed.

Lemma run_stuck_on_one_page_witness :
  let st := Fake.start single_page in
  driver_get Fake.engine (url Fake.scraper) (world st) = (Ok tt, single_page)
  /\ time_sleep Fake.engine 2 single_page = single_page
  /\ stuck_on Fake.engine Fake.scraper single_page [4; 8]%nat
  /\ Forall (complete Fake.engine single_page) [4; 8]%nat
  /\ exists batch,
       Forall2 (record_of Fake.engine single_page) [4; 8]%nat batch
       /\ content (files (snd (scrape_all_pages Fake.engine Fake.scraper 3 st)))
            (csv_file Fake.scraper)
          = content (files st) (csv_file Fake.scraper)
            ++ concat (replicate (Z.to_nat 3) batch).
Proof.
  assert (Hstuck : stuck_on Fake.engine Fake.scraper single_page [4; 8]%nat).
  { split; [reflexivity|]. split; [eexists; reflexivity|]. intros rows. by repeat split. }
  assert (Hall : Forall (complete Fake.engine single_page) [4; 8]%nat).
  { repeat apply List.Forall_cons; [| |apply List.Forall_nil];
      (repeat split; eexists; reflexivity). }
  split; [reflexivity|]. split; [reflexivity|]. split; [exact Hstuck|].
  split; [exact Hall|].
  apply (run_stuck_on_one_page Fake.engine Fake.scraper 3 (Fake.start single_page)
           single_page single_page [4; 8]%nat); [reflexivity|reflexivity|exact Hstuck|exact Hall].
Defined.

(** X12.  The script is where an exception can escape: the constructor
    catches nothing.  When Chrome does not start, or when the log sink
    cannot be added (Chrome is then running and is never quit), the
    exception leaves [main] before anything is scraped or logged.  When
    both go through, [main] ends normally after loading the example URL
    and scraping five pages with four advances. *)
Theorem main_outcome {World} (L : Launcher World) (E : Engine World) (st : State World) :
  (forall e w1,
      webdriver_Chrome L (world st) = (Raise e, w1) ->
      main L E st = (Raise e, mkState w1 (files st) (trace st)))
  /\ (forall w1 e w2,
         webdriver_Chrome L (world st) = (Ok tt, w1) ->
         logger_add L "daraz_scraper.log" w1 = (Raise e, w2) ->
         main L E st = (Raise e, mkState w2 (files st) (trace st)))
  /\ (forall w1 w2,
         webdriver_Chrome L (world st) = (Ok tt, w1) ->
         logger_add L "daraz_scraper.log" w1 = (Ok tt, w2) ->
         exists st',
           main L E st = (Ok tt, st')
           /\ page_calls (trace st')
              = page_calls (trace st)
                ++ concat (replicate 4 [m_scrape_products; m_go_to_next_page])
                ++ [m_scrape_products]
           /\ gets (trace st')
              = gets (trace st)
                ++ ["https://www.daraz.pk/catalog/?spm=a2a0e.tm80335142.search.d_go&q=mobile"]
           /\ (closes (trace st) < closes (trace st'))%nat).
Proof.
  split; [|split].
  - intros e w1 Hchrome. unfold main, bind, __init__. by rewrite Hchrome.
  - intros w1 e w2 Hchrome Hadd. unfold main, bind, __init__. by rewrite Hchrome, Hadd.
  - intros w1 w2 Hchrome Hadd. unfold main, bind at 1, __init__.
    rewrite Hchrome, Hadd.
    match goal with
    | |- context [bind (scrape_all_pages E ?self 5) _ ?s] =>
        destruct (scrape_all_pages_spec E self 5 s) as (st' & Hrun & Hcalls & Hcloses);
        destruct (scrape_all_pages_more E self 5 s) as (_ & _ & _ & Hgets);
        rewrite (bind_ok _ _ _ _ _ Hrun)
    end.
    rewrite Hrun in Hgets; simpl in Hcloses, Hgets.
    exists st'. split; [done|]. split; [|split].
    + rewrite Hcalls. simpl trace. by rewrite (visits_of_run 5) by lia.
    + exact Hgets.
    + rewrite Hcloses. destruct (fst (driver_get E _ w2)); lia.
Qed.

Lemma main_outcome_witness :
  main bad_launcher Fake.engine (Fake.start Fake.online)
  = (Raise (OtherException "chromedriver not found"), Fake.start Fake.online)
  /\ fst (main good_launcher Fake.engine (Fake.start Fake.online)) = Ok tt.
Proof.
  destruct (main_outcome bad_launcher Fake.engine (Fake.start Fake.online)) as [Hbad _].
  destruct (main_outcome good_launcher Fake.engine (Fake.start Fake.online))
    as (_ & _ & Hgood).
  split.
  - apply (Hbad (OtherException "chromedriver not found") Fake.online). reflexivity.
  - destruct (Hgood Fake.online Fake.online eq_refl eq_refl) as (st' & -> & _).
    reflexivity.
Defined.

(** X13.  On a disk that never fails, writing two batches one after the
    other puts in the CSV file what writing the two batches as one does:
    the former content, then the first batch, then the second.  The second
    write goes after the first, it does not replace it. *)
Theorem write_to_csv_twice {World} (E : Engine World) self data1 data2
    (st : State World) :
  reliable_disk E ->
  content (files (snd ((write_to_csv E self data1;; write_to_csv E self data2) st)))
    (csv_file self)
  = content (files (snd (write_to_csv E self (data1 ++ data2) st))) (csv_file self)
  /\ content (files (snd ((write_to_csv E self data1;; write_to_csv E self data2) st)))
       (csv_file self)
     = content (files st) (csv_file self) ++ data1 ++ data2.
Proof.
  intros Hrel.
  assert (Hwrite : forall data (s : State World),
             exists s',
               write_to_csv E self data s = (Ok PyNone, s')
               /\ content (files s') (csv_file self)
                  = content (files s) (csv_file self) ++ data).
  { intros data s.
    destruct (Hrel (csv_file self) data (world s)) as [[w1 Hopen] _].
    destruct (Hrel (csv_file self) data w1) as (_ & [w2 Hwr] & _).
    destruct (Hrel (csv_file self) data w2) as (_ & _ & [w3 Hclose]).
    rewrite (write_to_csv_success E self data s w1 w2 w3 Hopen Hwr Hclose).
    eexists. split; [reflexivity|]. simpl. by rewrite content_insert. }
  destruct (Hwrite data1 st) as (st1 & H1 & Hc1).
  destruct (Hwrite data2 st1) as (st2 & H2 & Hc2).
  destruct (Hwrite (data1 ++ data2) st) as (st12 & H12 & Hc12).
  rewrite (bind_ok _ _ _ _ _ H1), H2, H12. simpl.
  rewrite Hc2, Hc1, Hc12, <- app_assoc. by split.
Qed.

Lemma write_to_csv_twice_witness :
  let st := mkState Fake.online Fake.disk [] in
  let data1 := [["Phone A"; "Rs. 1,200"; "5 sold"]] in
  let data2 := [["Phone B"; "Rs. 900"; "12 sold"]] in
  reliable_disk sound_engine
  /\ content (files (snd ((write_to_csv sound_engine Fake.scraper data1;;
                           write_to_csv sound_engine Fake.scraper data2) st)))
       (csv_file Fake.scraper)
     = content (files st) (csv_file Fake.scraper) ++ data1 ++ data2.
Proof.
  intros st data1 data2.
  assert (Hrel : reliable_disk sound_engine).
  { intros path rows w. repeat split; by exists w. }
  split; [exact Hrel|].
  apply (write_to_csv_twice sound_engine Fake.scraper data1 data2 st Hrel).
Defined.
